(** * The PITR coordinator of the backup agent (cmd/pbm-agent/pitr.go)

    A shallow embedding of the agent's point-in-time-recovery control loop:
    the tick [pitr], the concurrency gate [canSlicingNow], the stale-lock
    pre-check [pitrLockCheck], the leader-side nomination driver
    [nominateRSForPITR], the follower-side waiters [waitNominationForPITR]
    and [confirmReadyStatus], and the slicer-handle slot of the agent.

    The Go code is sequential code over a mutable agent and a shared
    metadata store.  It is embedded as state-passing functions over a state
    made of the agent, the outside world and the trace of the calls made to
    the packages the file imports.  A Go function returning [(v, err)] returns
    a pair here, [nil] is [None], and dereferencing a nil pointer panics. *)

From Stdlib Require Import ZArith List String Bool Lia.
Import ListNotations.
Local Open Scope string_scope.
Local Open Scope list_scope.

(** ** Data of the imported packages *)

Definition Duration := Z.

Module time.
Definition Second : Duration := 1000000000%Z.
Definition Minute : Duration := (60 * Second)%Z.
End time.

Module primitive.
(** A BSON timestamp: two unsigned 32-bit numbers. *)
Record Timestamp := { T : Z; I : Z }.

Definition uint32_max : Z := 4294967295%Z.
Definition wrap32 (z : Z) : Z := (z mod 4294967296)%Z.
Definition is_uint32 (z : Z) : Prop := (0 <= z <= uint32_max)%Z.
End primitive.

Module ctrl.
Definition Command := string.
Definition CmdBackup : Command := "backup".
Definition CmdPITR : Command := "pitr".

(** An operation id is a 96-bit object id; [NilOPID] is the zero id. *)
Definition OPID := N.
Definition NilOPID : OPID := 0%N.
End ctrl.

Module defs.
Definition BackupType := string.
Definition LogicalBackup : BackupType := "logical".
End defs.

Module lock.
Record LockHeader := {
  Type_ : ctrl.Command;
  Replset : string;
  Node : string;
  OPID : string;
  Epoch : option primitive.Timestamp
}.

Record LockData := {
  Header : LockHeader;
  Heartbeat : primitive.Timestamp
}.

(** [lock.LockHeader{}] *)
Definition zeroHeader : LockHeader :=
  {| Type_ := ""; Replset := ""; Node := ""; OPID := ""; Epoch := None |}.
End lock.

Module backup.
Record BackupMeta := { Type_ : defs.BackupType; OPID : string; Name : string }.
End backup.

Module errors.
(** Error values: the two not-found sentinels ([mongo.ErrNoDocuments] and
    the agent's own [errors.ErrNotFound]), [errors.New], [errors.Wrap],
    and the two typed errors the coordinator inspects. *)
Inductive error :=
| ErrNoDocuments
| ErrNotFound
| New (msg : string)
| Wrap (cause : error) (msg : string)
| ConcurrentOpError (Lock : lock.LockHeader)
| OpMovedError (to : string).

Definition Timestamp_eq_dec (a b : primitive.Timestamp) : {a = b} + {a <> b}.
Proof. decide equality; apply Z.eq_dec. Defined.

Definition LockHeader_eq_dec (a b : lock.LockHeader) : {a = b} + {a <> b}.
Proof.
  decide equality; try apply string_dec.
  decide equality. apply Timestamp_eq_dec.
Defined.

Definition error_eq_dec (a b : error) : {a = b} + {a <> b}.
Proof.
  decide equality; try apply string_dec. apply LockHeader_eq_dec.
Defined.

(** [errors.Is]: walks the chain of wrapped errors; a link matches when it
    equals the target, or when its own [Is] method accepts the target
    (an [OpMovedError] accepts every [OpMovedError]). *)
Fixpoint Is (err target : error) : bool :=
  if error_eq_dec err target then true
  else match err, target with
       | OpMovedError _, OpMovedError _ => true
       | Wrap cause _, _ => Is cause target
       | _, _ => false
       end.

(** [errors.As] with a [lock.ConcurrentOpError] target: the first link of
    that type. *)
Fixpoint AsConcurrentOp (err : error) : option lock.LockHeader :=
  match err with
  | ConcurrentOpError h => Some h
  | Wrap cause _ => AsConcurrentOp cause
  | _ => None
  end.
End errors.
Import errors.

Module config.
Record PITRConf := {
  Enabled : bool;
  OplogOnly : bool;
  OplogSpanMin : Z;          (* minutes *)
  Priority : list (string * Z);
  Compression : string;
  CompressionLevel : option Z
}.

Record Config := {
  PITR : PITRConf;
  Storage : string;
  Timeouts : option Z;       (* cfg.Backup.Timeouts *)
  Epoch : primitive.Timestamp
}.

(** [&config.Config{}]: every field at its zero value. *)
Definition empty : Config :=
  {| PITR := {| Enabled := false; OplogOnly := false; OplogSpanMin := 0;
                Priority := [];
                Compression := ""; CompressionLevel := None |};
     Storage := "";
     Timeouts := None;
     Epoch := {| primitive.T := 0; primitive.I := 0 |} |}.
End config.

Module topo.
Record NodeInfoExt := {
  SetName : string;
  Me : string;
  IsPrimary : bool;
  IsConfigSrv : bool
}.

Record AgentStat := { Node : string; RS : string }.
Record Shard := { ID : string; ShardRS : string; Host : string }.
End topo.

Module prio.
(** The computed priorities, seen through their only observer here:
    [nodes.RS(rs)], the ordered tiers of a replica set. *)
Definition NodesPriority := string -> list (list string).
Definition RS (nodes : NodesPriority) (rs : string) : list (list string) :=
  nodes rs.
End prio.

Module oplog.
Record PITRNominee := {
  RS : string;
  Nodes : list string;
  Ack : string
}.

Definition Status := string.
Definition StatusReady : Status := "ready".
End oplog.

(** References to the objects the agent shares with its goroutines. *)
Definition SlicerRef := nat.
Definition StorageRef := nat.
Definition ChanRef := nat.
Definition CtxRef := nat.

(** ** The agent *)

Record currentPitr := {
  slicer : SlicerRef;
  w : ChanRef;          (* to wake up a slicer on demand *)
  cancel : CtxRef
}.

Record NodeBrief := { SetName : string; Me : string }.

Record Agent := {
  brief : NodeBrief;
  pitrjob : option currentPitr;
  prevOO : option bool
}.

Definition pitrCheckPeriod : Duration := (15 * time.Second)%Z.
Definition pitrRenominationFrame : Duration := (5 * time.Second)%Z.
Definition pitrOpLockPollingCycle : Duration := (15 * time.Second)%Z.
Definition pitrOpLockPollingTimeOut : Duration := (2 * time.Minute)%Z.
Definition pitrNominationPollingCycle : Duration := (2 * time.Second)%Z.
Definition pitrNominationPollingTimeOut : Duration := (2 * time.Minute)%Z.

(** ** Calls to the outside, and their trace *)

(** Which case of a [select] over a ticker and a timer fired. *)
Inductive SelectCase := TickFired | TimeoutFired.

Inductive Level := DebugLevel | InfoLevel | WarningLevel | ErrorLevel.

(** The goroutines the tick starts. *)
Inductive Task :=
| GoNominate (rs : string) (nodes : option prio.NodesPriority)
| GoStream (s : SlicerRef) (lck : lock.LockHeader) (cfg : config.Config)
| GoWatch (stopSlicingCtx : CtxRef) (stopC : ChanRef).

(** One event per call that leaves this file, with its arguments and the
    result the caller reads.  The results of [oplog.InitMeta] and
    [oplog.SetPITRNomineeACK] are not in their events: the tick drops the
    first and overwrites the second before reading it. *)
Inductive Event :=
| EvGetConfig (res : option config.Config * option error)
| EvGetEpoch (res : primitive.Timestamp * option error)
| EvGetLocks (filter : lock.LockHeader) (res : list lock.LockData * option error)
| EvGetOpLockData (filter : lock.LockHeader) (res : lock.LockData * option error)
| EvAcquireLock (h : lock.LockHeader) (res : bool * option error)
| EvLockRelease (h : lock.LockHeader) (res : option error)
| EvGetBackupByOPID (opid : string) (res : option backup.BackupMeta * option error)
| EvGetClusterTime (res : primitive.Timestamp * option error)
| EvGetNodeInfoExt (res : option topo.NodeInfoExt * option error)
| EvNodeSuits (ni : topo.NodeInfoExt) (res : bool * option error)
| EvListAgentStatuses (res : list topo.AgentStat * option error)
| EvClusterMembers (res : list topo.Shard * option error)
| EvCalcNodesPriority (agents : list topo.AgentStat)
                      (res : option prio.NodesPriority * option error)
| EvInitMeta
| EvIsOplogSlicing (res : bool * option error)
| EvSetPITRNomination (rs : string) (res : option error)
| EvGetPITRNominees (rs : string) (res : option oplog.PITRNominee * option error)
| EvSetPITRNominees (rs : string) (nodes : list string) (res : option error)
| EvSetPITRNomineeACK (rs node : string)
| EvGetClusterStatus (res : oplog.Status * option error)
| EvSetReadyRSStatus (rs node : string) (res : option error)
| EvStorageFromConfig (stg : string) (res : option StorageRef * option error)
| EvNewSlicer (rs : string) (stg : option StorageRef) (cfg : config.Config) (s : SlicerRef)
| EvGetSpan (s : SlicerRef) (res : Duration)
| EvSetSpan (s : SlicerRef) (d : Duration)
| EvCatchup (oplogOnly : bool) (s : SlicerRef) (res : option error)
| EvStream (s : SlicerRef) (stopC wake : ChanRef) (res : option error)
| EvSleep (d : Duration)
| EvSelect (cycle timeout : Duration) (res : SelectCase)
| EvChanSend (ch : ChanRef) (opid : ctrl.OPID)
| EvMakeChan (ch : ChanRef)
| EvCloseChan (ch : ChanRef)
| EvWithCancel (c : CtxRef)
| EvCancel (c : CtxRef)
| EvCtxDone (c : CtxRef)
| EvGo (task : Task)
| EvLog (lvl : Level) (fmt : string).

(** The packages the file imports, as operations on a world [W].  A read is
    a function of the world; a write, a sleep or a wait also yields the next
    world, which is where the other agents of the cluster act.
    [acquireLock] is the agent's own method of that name, defined next to
    this file; the spec gives it as [acquire(header) -> bool], with an error
    besides. *)
Class Deps (W : Type) := {
  (* config, defs *)
  config_GetConfig : W -> option config.Config * option error;
  config_GetEpoch : W -> primitive.Timestamp * option error;
  config_OplogSlicerInterval : config.Config -> Duration;
  defs_StaleFrameSec : Z;
  (* lock *)
  lock_GetLocks : lock.LockHeader -> W -> list lock.LockData * option error;
  lock_GetOpLockData : lock.LockHeader -> W -> lock.LockData * option error;
  acquireLock : lock.LockHeader -> W -> (bool * option error) * W;
  lock_Release : lock.LockHeader -> W -> option error * W;
  (* backup *)
  backup_GetBackupByOPID : string -> W -> option backup.BackupMeta * option error;
  (* topo *)
  topo_GetClusterTime : W -> primitive.Timestamp * option error;
  topo_GetNodeInfoExt : W -> option topo.NodeInfoExt * option error;
  topo_IsClusterLeader : topo.NodeInfoExt -> bool;
  topo_NodeSuits : topo.NodeInfoExt -> W -> bool * option error;
  topo_ListAgentStatuses : W -> list topo.AgentStat * option error;
  topo_ClusterMembers : W -> list topo.Shard * option error;
  (* prio *)
  prio_CalcNodesPriority :
    list (string * Z) -> list topo.AgentStat -> W ->
    option prio.NodesPriority * option error;
  (* oplog *)
  oplog_InitMeta : W -> option error * W;
  oplog_IsOplogSlicing : W -> bool * option error;
  oplog_SetPITRNomination : string -> W -> option error * W;
  oplog_GetPITRNominees : string -> W -> option oplog.PITRNominee * option error;
  oplog_SetPITRNominees : string -> list string -> W -> option error * W;
  oplog_SetPITRNomineeACK : string -> string -> W -> option error * W;
  oplog_GetClusterStatus : W -> oplog.Status * option error;
  oplog_SetReadyRSStatus : string -> string -> W -> option error * W;
  (* util, slicer *)
  util_StorageFromConfig : string -> W -> (option StorageRef * option error) * W;
  slicer_NewSlicer : string -> option StorageRef -> config.Config -> W -> SlicerRef * W;
  slicer_GetSpan : SlicerRef -> W -> Duration;
  slicer_SetSpan : SlicerRef -> Duration -> W -> W;
  slicer_Catchup : SlicerRef -> W -> option error * W;
  slicer_OplogOnlyCatchup : SlicerRef -> W -> option error * W;
  slicer_Stream : SlicerRef -> ChanRef -> ChanRef -> string -> option Z ->
                  option Z -> W -> option error * W;
  (* the Go runtime: time, channels, contexts *)
  time_Sleep : Duration -> W -> W;
  select_tick_or_timeout : Duration -> Duration -> W -> SelectCase * W;
  chan_make : W -> ChanRef * W;
  chan_send : ChanRef -> ctrl.OPID -> W -> W;
  chan_close : ChanRef -> W -> W;
  context_WithCancel : W -> CtxRef * W;
  context_cancel : CtxRef -> W -> W;
  context_Done : CtxRef -> W -> W
}.

(** ** Sequential Go code as a state-passing monad *)

Section Monad.
Variable S : Type.

(** How a statement ends: it falls through with a value, it executes a
    [return], it panics, or the model's fuel for polling loops is spent. *)
Inductive Res (R A : Type) : Type :=
| Next (a : A)
| Return (r : R)
| Panic
| OutOfFuel.

(** How a function call ends. *)
Inductive Out (R : Type) : Type :=
| Returned (r : R)
| Panicked
| NoFuel.

Definition M (R A : Type) : Type := S -> Res R A * S.
Definition Fn (R : Type) : Type := S -> Out R * S.
End Monad.

Arguments Next {R A} a.
Arguments Return {R A} r.
Arguments Panic {R A}.
Arguments OutOfFuel {R A}.
Arguments Returned {R} r.
Arguments Panicked {R}.
Arguments NoFuel {R}.

Section MonadOps.
Context {S R : Type}.

Definition pure {A} (a : A) : M S R A := fun s => (Next a, s).

Definition ret {A} (r : R) : M S R A := fun s => (Return r, s).

Definition panic {A} : M S R A := fun s => (Panic, s).

Definition outOfFuel {A} : M S R A := fun s => (OutOfFuel, s).

Definition bind {A B} (m : M S R A) (k : A -> M S R B) : M S R B :=
  fun s =>
    match m s with
    | (Next a, s') => k a s'
    | (Return r, s') => (Return r, s')
    | (Panic, s') => (Panic, s')
    | (OutOfFuel, s') => (OutOfFuel, s')
    end.

(** [if b { ... }] *)
Definition when (b : bool) (m : M S R unit) : M S R unit :=
  if b then m else pure tt.

(** [if err != nil { ... }] *)
Definition whenSome {X} (o : option X) (f : X -> M S R unit) : M S R unit :=
  match o with Some x => f x | None => pure tt end.

(** [*p] *)
Definition deref {X} (p : option X) : M S R X :=
  match p with Some x => pure x | None => panic end.

(** A call of a function from inside another body. *)
Definition call {X} (f : Fn S X) : M S R X :=
  fun s =>
    match f s with
    | (Returned x, s') => (Next x, s')
    | (Panicked, s') => (Panic, s')
    | (NoFuel, s') => (OutOfFuel, s')
    end.
End MonadOps.

(** A function body: falling off its end returns the value it ended with. *)
Definition run {S R} (body : M S R R) : Fn S R :=
  fun s =>
    match body s with
    | (Next r, s') => (Returned r, s')
    | (Return r, s') => (Returned r, s')
    | (Panic, s') => (Panicked, s')
    | (OutOfFuel, s') => (NoFuel, s')
    end.

Declare Scope go_scope.
Delimit Scope go_scope with go.
Notation "x <- m ;; k" := (bind m (fun x => k))
  (at level 61, m at next level, right associativity) : go_scope.
Notation "' pat <- m ;; k" := (bind m (fun x => match x with pat => k end))
  (at level 61, pat pattern, m at next level, right associativity) : go_scope.
Notation "m ;; k" := (bind m (fun _ => k))
  (at level 61, right associativity) : go_scope.
Local Open Scope go_scope.

Section Loops.
Context {S R : Type}.

(** [for _, x := range xs { body }] *)
Fixpoint forEach {X} (xs : list X) (body : X -> M S R unit) : M S R unit :=
  match xs with
  | [] => pure tt
  | x :: rest => body x ;; forEach rest body
  end.

(** [for { body }], with fuel for the number of iterations; [continue] is
    the end of the body, and no statement after the loop is reached. *)
Fixpoint forever {A} (fuel : nat) (body : M S R unit) : M S R A :=
  match fuel with
  | O => outOfFuel
  | Datatypes.S n => body ;; forever n body
  end.
End Loops.

(** ** The coordinator *)

Section Coordinator.
Context {W : Type} {D : Deps W}.

Record St := mkSt {
  agent : Agent;
  world : W;
  trace : list Event
}.

Definition emit (ev : Event) (s : St) : St :=
  {| agent := agent s; world := world s; trace := trace s ++ [ev] |}.

(** A call that only reads the world. *)
Definition obs {R A} (op : W -> A) (ev : A -> Event) : M St R A :=
  fun s => let a := op (world s) in (Next a, emit (ev a) s).

(** A call that also changes the world. *)
Definition ext {R A} (op : W -> A * W) (ev : A -> Event) : M St R A :=
  fun s =>
    let (a, w') := op (world s) in
    (Next a, emit (ev a) {| agent := agent s; world := w'; trace := trace s |}).

(** A call without a result. *)
Definition act {R} (op : W -> W) (ev : Event) : M St R unit :=
  ext (fun w0 => (tt, op w0)) (fun _ => ev).

Definition logf {R} (lvl : Level) (fmt : string) : M St R unit :=
  fun s => (Next tt, emit (EvLog lvl fmt) s).

Definition go {R} (task : Task) : M St R unit :=
  fun s => (Next tt, emit (EvGo task) s).

Definition getAgent {R} : M St R Agent := fun s => (Next (agent s), s).

Definition setAgent {R} (a : Agent) : M St R unit :=
  fun s => (Next tt, {| agent := a; world := world s; trace := trace s |}).

(** *** The slicer-handle slot (the agent's mutex guards it; one thread of
    control is modelled, so taking and dropping the mutex leave no mark) *)

Definition setPitr (p : option currentPitr) : Fn St unit := run (
  a <- getAgent ;;
  whenSome (pitrjob a) (fun old => act (context_cancel (cancel old)) (EvCancel (cancel old))) ;;
  setAgent {| brief := brief a; pitrjob := p; prevOO := prevOO a |}).

Definition removePitr : Fn St unit := run (call (setPitr None)).

Definition getPitr : Fn St (option currentPitr) := run (
  a <- getAgent ;;
  ret (pitrjob a)).

Definition sliceNow (opid : ctrl.OPID) : Fn St unit := run (
  a <- getAgent ;;
  match pitrjob a with
  | None => ret tt
  | Some job => act (chan_send (w job) opid) (EvChanSend (w job) opid)
  end).

Definition stopPitrOnOplogOnlyChange (currOO : bool) : Fn St unit := run (
  a <- getAgent ;;
  match prevOO a with
  | None =>
      setAgent {| brief := brief a; pitrjob := pitrjob a; prevOO := Some currOO |} ;;
      ret tt
  | Some prev =>
      when (Bool.eqb prev currOO) (ret tt) ;;
      setAgent {| brief := brief a; pitrjob := pitrjob a; prevOO := Some currOO |} ;;
      call removePitr
  end).

(** *** The concurrency gate *)

(** The body of the loop over the locks: one lock [l]. *)
Definition checkLock (l : lock.LockData) : M St (option error) unit :=
  when (negb (String.eqb (lock.Type_ (lock.Header l)) ctrl.CmdBackup))
       (ret (Some (ConcurrentOpError (lock.Header l)))) ;;
  '(bcp, err) <- obs (backup_GetBackupByOPID (lock.OPID (lock.Header l)))
                     (EvGetBackupByOPID (lock.OPID (lock.Header l))) ;;
  whenSome err (fun e => ret (Some (Wrap e "get backup metadata"))) ;;
  bcp <- deref bcp ;;
  when (String.eqb (backup.Type_ bcp) defs.LogicalBackup)
       (ret (Some (ConcurrentOpError (lock.Header l)))).

(** [canSlicingNow] returns [lock.ConcurrentOpError] if there is a parallel
    operation.  Only physical backups are allowed. *)
Definition canSlicingNow : Fn St (option error) := run (
  '(locks, err) <- obs (lock_GetLocks lock.zeroHeader) (EvGetLocks lock.zeroHeader) ;;
  whenSome err (fun e => ret (Some (Wrap e "get locks data"))) ;;
  forEach locks checkLock ;;
  ret None).

(** *** The leader-side nomination driver *)

(** The body of the loop over the tiers: one priority tier [n]. *)
Definition nominateTier (rs : string) (n : list string) : M St (option error) unit :=
  '(nms, err) <- obs (oplog_GetPITRNominees rs) (EvGetPITRNominees rs) ;;
  whenSome err (fun e =>
    when (negb (errors.Is e ErrNotFound))
         (ret (Some (Wrap e "get pitr nominees")))) ;;
  match nms with
  | Some nm =>
      when (0 <? String.length (oplog.Ack nm))%nat
           (logf DebugLevel "pitr nomination: %s won by %s" ;; ret None)
  | None => pure tt
  end ;;
  err <- ext (oplog_SetPITRNominees rs n) (EvSetPITRNominees rs n) ;;
  whenSome err (fun e => ret (Some (Wrap e "set pitr nominees"))) ;;
  logf DebugLevel "pitr nomination %s, set candidates %v" ;;
  act (time_Sleep pitrRenominationFrame) (EvSleep pitrRenominationFrame).

Definition nominateRSForPITR (rs : string) (nodes : list (list string))
  : Fn St (option error) := run (
  logf DebugLevel "pitr nomination list for %s: %v" ;;
  err <- ext (oplog_SetPITRNomination rs) (EvSetPITRNomination rs) ;;
  whenSome err (fun e => ret (Some (Wrap e "set pitr nomination meta"))) ;;
  forEach nodes (nominateTier rs) ;;
  ret None).

(** *** The stale-lock pre-check *)

Definition pitrLockCheck : Fn St (bool * option error) := run (
  a <- getAgent ;;
  '(ts, err) <- obs topo_GetClusterTime EvGetClusterTime ;;
  whenSome err (fun e => ret (false, Some (Wrap e "read cluster time"))) ;;
  let filter :=
    {| lock.Type_ := ctrl.CmdPITR; lock.Replset := SetName (brief a);
       lock.Node := ""; lock.OPID := ""; lock.Epoch := None |} in
  '(tl, err) <- obs (lock_GetOpLockData filter) (EvGetOpLockData filter) ;;
  whenSome err (fun e =>
    when (errors.Is e ErrNoDocuments) (ret (true, None)) ;;
    ret (false, Some (Wrap e "get lock"))) ;;
  ret ((primitive.wrap32 (primitive.T (lock.Heartbeat tl) + defs_StaleFrameSec)
        <? primitive.T ts)%Z, None)).

(** *** The waiters *)

(** [waitAllOpLockRelease] waits to not have any live OpLock and in such a
    case returns true; on timeout it returns false.  [pollOpLockRelease]
    is one turn of its loop: the [select] and the case taken. *)
Definition pollOpLockRelease : M St (bool * option error) unit :=
  c <- ext (select_tick_or_timeout pitrOpLockPollingCycle pitrOpLockPollingTimeOut)
           (EvSelect pitrOpLockPollingCycle pitrOpLockPollingTimeOut) ;;
  match c with
  | TickFired =>
      '(running, err) <- obs oplog_IsOplogSlicing EvIsOplogSlicing ;;
      whenSome err (fun e => ret (false, Some (Wrap e "is oplog slicing check"))) ;;
      when (negb running) (ret (true, None)) ;;
      logf DebugLevel "oplog slicing still running"
  | TimeoutFired =>
      logf WarningLevel "timeout while waiting for relese all OpLocks" ;;
      ret (false, None)
  end.

Definition waitAllOpLockRelease (fuel : nat) : Fn St (bool * option error) := run (
  forever fuel pollOpLockRelease).

(** One turn of the ready-status loop: the [select] and the case taken. *)
Definition pollReadyStatus (a : Agent) : M St (option error) unit :=
  c <- ext (select_tick_or_timeout pitrNominationPollingCycle pitrNominationPollingTimeOut)
           (EvSelect pitrNominationPollingCycle pitrNominationPollingTimeOut) ;;
  match c with
  | TickFired =>
      '(status, err) <- obs oplog_GetClusterStatus EvGetClusterStatus ;;
      match err with
      | Some e =>
          if errors.Is e ErrNotFound then pure tt (* continue *)
          else ret (Some (Wrap e "getting cluser status"))
      | None =>
          when (String.eqb status oplog.StatusReady) (
            err <- ext (oplog_SetReadyRSStatus (SetName (brief a)) (Me (brief a)))
                       (EvSetReadyRSStatus (SetName (brief a)) (Me (brief a))) ;;
            whenSome err (fun e => ret (Some (Wrap e "setting ready status for RS"))) ;;
            ret None)
      end
  | TimeoutFired =>
      ret (Some (New "timeout while waiting for ready status"))
  end.

Definition confirmReadyStatus (fuel : nat) : Fn St (option error) := run (
  a <- getAgent ;;
  logf DebugLevel "waiting for cluster ready status" ;;
  forever fuel (pollReadyStatus a)).

(** One turn of the nomination loop: the [select] and the case taken. *)
Definition pollNomination (rs node : string) : M St (bool * option error) unit :=
  c <- ext (select_tick_or_timeout pitrNominationPollingCycle pitrNominationPollingTimeOut)
           (EvSelect pitrNominationPollingCycle pitrNominationPollingTimeOut) ;;
  match c with
  | TickFired =>
      '(nm, err) <- obs (oplog_GetPITRNominees rs) (EvGetPITRNominees rs) ;;
      match err with
      | Some e =>
          if errors.Is e ErrNotFound then pure tt (* continue *)
          else ret (false, Some (Wrap e "check pitr nomination"))
      | None =>
          nm <- deref nm ;;
          when (0 <? String.length (oplog.Ack nm))%nat (ret (false, None)) ;;
          forEach (oplog.Nodes nm) (fun n =>
            when (String.eqb n node) (ret (true, None)))
      end
  | TimeoutFired => ret (false, None)
  end.

(** [waitNominationForPITR] is used by a potential nominee to determine
    whether it is nominated by the leader. *)
Definition waitNominationForPITR (fuel : nat) (rs node : string)
  : Fn St (bool * option error) := run (
  err <- call (confirmReadyStatus fuel) ;;
  whenSome err (fun e => ret (false, Some (Wrap e "confirming ready status"))) ;;
  logf DebugLevel "waiting pitr nomination" ;;
  forever fuel (pollNomination rs node)).

(** *** The tick *)

Definition pitr (fuel : nat) : Fn St (option error) := run (
  a <- getAgent ;;
  '(cfg, err) <- obs config_GetConfig EvGetConfig ;;
  cfg <- match err with
         | Some e =>
             when (negb (errors.Is e ErrNoDocuments)) (ret (Some (Wrap e "get conf"))) ;;
             pure (Some config.empty)
         | None => pure cfg
         end ;;
  cfg <- deref cfg ;;
  let slicerInterval := config_OplogSlicerInterval cfg in
  let ep := config.Epoch cfg in

  when (negb (config.Enabled (config.PITR cfg))) (
    call removePitr ;;
    ret None) ;;

  call (stopPitrOnOplogOnlyChange (config.OplogOnly (config.PITR cfg))) ;;

  err <- call canSlicingNow ;;
  whenSome err (fun err =>
    match errors.AsConcurrentOp err with
    | Some e =>
        logf InfoLevel "oplog slicer is paused for lock [%s, opid: %s]" ;;
        ret None
    | None => ret (Some err)
    end) ;;

  p <- call getPitr ;;
  whenSome p (fun p =>
    (* already do the job *)
    currInterval <- obs (slicer_GetSpan (slicer p)) (EvGetSpan (slicer p)) ;;
    when (negb (currInterval =? slicerInterval)%Z) (
      act (slicer_SetSpan (slicer p) slicerInterval) (EvSetSpan (slicer p) slicerInterval) ;;
      (* wake up slicer only if a new interval is smaller *)
      when (currInterval >? slicerInterval)%Z (call (sliceNow ctrl.NilOPID))) ;;
    ret None) ;;

  (* just a check before a real locking *)
  '(moveOn, err) <- call pitrLockCheck ;;
  whenSome err (fun e => ret (Some (Wrap e "check if already run"))) ;;
  when (negb moveOn) (
    logf DebugLevel "pitr running on another RS member" ;;
    ret None) ;;

  '(nodeInfo, err) <- obs topo_GetNodeInfoExt EvGetNodeInfoExt ;;
  whenSome err (fun e =>
    logf ErrorLevel "get node info: %v" ;;
    ret (Some (Wrap e "get node info"))) ;;
  nodeInfo <- deref nodeInfo ;;

  '(q, err) <- obs (topo_NodeSuits nodeInfo) (EvNodeSuits nodeInfo) ;;
  whenSome err (fun e => ret (Some (Wrap e "node check"))) ;;
  (* node is not suitable for doing pitr *)
  when (negb q) (ret None) ;;

  let isClusterLeader := topo_IsClusterLeader nodeInfo in

  when isClusterLeader (
    logf DebugLevel "checking locks in the whole cluster" ;;
    '(noLocks, err) <- call (waitAllOpLockRelease fuel) ;;
    whenSome err (fun e =>
      logf ErrorLevel "wait for all oplock release: %v" ;;
      ret (Some (Wrap e "wait all oplock release"))) ;;
    when (negb noLocks) (
      logf DebugLevel "there are still working pitr members, members nomination will not be continued" ;;
      ret None) ;;

    logf DebugLevel "init pitr meta on the first usage" ;;
    _ <- ext oplog_InitMeta (fun _ => EvInitMeta) ;;

    '(agents, err) <- obs topo_ListAgentStatuses EvListAgentStatuses ;;
    whenSome err (fun e =>
      logf ErrorLevel "get agents list: %v" ;;
      ret (Some (Wrap e "list agents statuses"))) ;;

    '(nodes, err) <- obs (prio_CalcNodesPriority (config.Priority (config.PITR cfg)) agents)
                         (EvCalcNodesPriority agents) ;;
    whenSome err (fun e =>
      logf ErrorLevel "get nodes priority: %v" ;;
      ret (Some (Wrap e "get nodes priorities"))) ;;

    '(shards, err) <- obs topo_ClusterMembers EvClusterMembers ;;
    whenSome err (fun e =>
      logf ErrorLevel "get cluster members: %v" ;;
      ret (Some (Wrap e "get cluster members"))) ;;

    forEach shards (fun sh => go (GoNominate (topo.ShardRS sh) nodes))) ;;

  '(nominated, err) <- call (waitNominationForPITR fuel (topo.SetName nodeInfo)
                                                   (topo.Me nodeInfo)) ;;
  whenSome err (fun e =>
    logf ErrorLevel "wait for pitr nomination: %v" ;;
    ret (Some (Wrap e "wait nomination for pitr"))) ;;
  when (negb nominated) (
    logf DebugLevel "skip after pitr nomination, probably started by another node" ;;
    ret None) ;;

  let epts := ep in
  let lck :=
    {| lock.Type_ := ctrl.CmdPITR; lock.Replset := SetName (brief a);
       lock.Node := Me (brief a); lock.OPID := ""; lock.Epoch := Some epts |} in

  '(got, err) <- ext (acquireLock lck) (EvAcquireLock lck) ;;
  whenSome err (fun e => ret (Some (Wrap e "acquiring lock"))) ;;
  when (negb got) (
    logf DebugLevel "skip: lock not acquired" ;;
    ret None) ;;
  _ <- ext (oplog_SetPITRNomineeACK (SetName (brief a)) (Me (brief a)))
           (fun _ => EvSetPITRNomineeACK (SetName (brief a)) (Me (brief a))) ;;

  '(stg, err) <- ext (util_StorageFromConfig (config.Storage cfg))
                     (EvStorageFromConfig (config.Storage cfg)) ;;
  whenSome err (fun e => ret (Some (Wrap e "unable to get storage configuration"))) ;;

  s <- ext (slicer_NewSlicer (SetName (brief a)) stg cfg)
           (EvNewSlicer (SetName (brief a)) stg cfg) ;;
  act (slicer_SetSpan s slicerInterval) (EvSetSpan s slicerInterval) ;;

  err <- (if config.OplogOnly (config.PITR cfg)
          then ext (slicer_OplogOnlyCatchup s) (EvCatchup true s)
          else ext (slicer_Catchup s) (EvCatchup false s)) ;;
  whenSome err (fun e =>
    rerr <- ext (lock_Release lck) (EvLockRelease lck) ;;
    whenSome rerr (fun _ => logf ErrorLevel "release lock: %v") ;;
    ret (Some (Wrap e "catchup"))) ;;

  go (GoStream s lck cfg) ;;

  ret None).

(** *** The goroutines the tick starts *)

(** [go func(rs string) { ... }(sh.RS)], one per shard. *)
Definition nominateTask (rs : string) (nodes : option prio.NodesPriority)
  : Fn St unit := run (
  nodes <- deref nodes ;;
  err <- call (nominateRSForPITR rs (prio.RS nodes rs)) ;;
  whenSome err (fun _ => logf ErrorLevel "nodes nomination error for %s: %v")).

(** The goroutine that waits for the slicing context to end. *)
Definition watchTask (stopSlicingCtx : CtxRef) (stopC : ChanRef) : Fn St unit := run (
  act (context_Done stopSlicingCtx) (EvCtxDone stopSlicingCtx) ;;
  act (chan_close stopC) (EvCloseChan stopC) ;;
  call removePitr).

(** The streaming goroutine.  Its deferred [stopSlicing()] runs last. *)
Definition streamTask (s : SlicerRef) (lck : lock.LockHeader) (cfg : config.Config)
  : Fn St unit := run (
  stopSlicing <- ext context_WithCancel EvWithCancel ;;
  stopC <- ext chan_make EvMakeChan ;;

  w <- ext chan_make EvMakeChan ;;
  call (setPitr (Some {| slicer := s; cancel := stopSlicing; w := w |})) ;;

  go (GoWatch stopSlicing stopC) ;;

  streamErr <- ext (slicer_Stream s stopC w
                      (config.Compression (config.PITR cfg))
                      (config.CompressionLevel (config.PITR cfg))
                      (config.Timeouts cfg))
                   (EvStream s stopC w) ;;
  whenSome streamErr (fun e =>
    if errors.Is e (OpMovedError "")
    then logf InfoLevel "streaming oplog: %v"
    else logf ErrorLevel "streaming oplog: %v") ;;

  err <- ext (lock_Release lck) (EvLockRelease lck) ;;
  whenSome err (fun _ => logf ErrorLevel "release lock: %v") ;;

  (* Penalty to the failed node so healthy nodes would have priority on
     next try.  But lock has to be released first. *)
  whenSome streamErr (fun _ =>
    act (time_Sleep (pitrCheckPeriod * 2)%Z) (EvSleep (pitrCheckPeriod * 2)%Z)) ;;

  act (context_cancel stopSlicing) (EvCancel stopSlicing)).

(** [PITR] starts the PITR processing routine. *)
Definition PITR (fuel : nat) : Fn St unit := run (
  logf InfoLevel "starting PITR routine" ;;
  forever fuel (
    err <- call (pitr fuel) ;;
    whenSome err (fun _ =>
      _ <- obs config_GetEpoch EvGetEpoch ;;
      logf ErrorLevel "init: %v") ;;
    act (time_Sleep pitrCheckPeriod) (EvSleep pitrCheckPeriod))).

(** *** Vocabulary of the statements *)

(** A lock that lets slicing go on: a backup lock whose backup metadata is
    read and is not of the logical type. *)
Definition physicalBackupLock (x : W) (l : lock.LockData) : Prop :=
  lock.Type_ (lock.Header l) = ctrl.CmdBackup /\
  exists bcp,
    backup_GetBackupByOPID (lock.OPID (lock.Header l)) x = (Some bcp, None) /\
    backup.Type_ bcp <> defs.LogicalBackup.

(** A lock that pauses slicing: not a backup lock, or the lock of a
    logical backup. *)
Definition blockingLock (x : W) (l : lock.LockData) : Prop :=
  lock.Type_ (lock.Header l) <> ctrl.CmdBackup \/
  exists bcp,
    backup_GetBackupByOPID (lock.OPID (lock.Header l)) x = (Some bcp, None) /\
    backup.Type_ bcp = defs.LogicalBackup.
End Coordinator.

Definition isLog (ev : Event) : Prop :=
  match ev with EvLog _ _ => True | _ => False end.

(** The log line, if any, after the stream call, after the release of the
    lock, and the failure penalty of the streaming goroutine. *)
Definition streamLog (res : option error) : list Event :=
  match res with
  | Some e => [EvLog (if errors.Is e (OpMovedError "") then InfoLevel else ErrorLevel)
                     "streaming oplog: %v"]
  | None => []
  end.

Definition releaseLog (rel : option error) : list Event :=
  match rel with
  | Some _ => [EvLog ErrorLevel "release lock: %v"]
  | None => []
  end.

Definition penalty (res : option error) : list Event :=
  match res with
  | Some _ => [EvSleep (pitrCheckPeriod * 2)%Z]
  | None => []
  end.

(** Once a fetch of the nominees of [rs] has seen an ack, the function
    returns and only log lines follow. *)
Definition ackStops (rs : string) (new : list Event)
           (res : Res (option error) unit) : Prop :=
  forall pre nm err post,
    new = pre ++ EvGetPITRNominees rs (Some nm, err) :: post ->
    (0 < String.length (oplog.Ack nm))%nat ->
    (exists r, res = Return r) /\ Forall isLog post.

(** What one tier leaves in the trace: if the loop goes on to the next
    tier, no fetch of this tier saw an ack. *)
Definition tierOK (rs : string) (new : list Event)
           (res : Res (option error) unit) : Prop :=
  match res with
  | Next _ =>
      forall pre nm err post,
        new = pre ++ EvGetPITRNominees rs (Some nm, err) :: post ->
        ~ (0 < String.length (oplog.Ack nm))%nat
  | _ => ackStops rs new res
  end.

(** The statement ended by falling through or by a [return]. *)
Definition completes {R A} (res : Res R A) : Prop :=
  match res with
  | Next _ | Return _ => True
  | Panic | OutOfFuel => False
  end.

(** Every fetch-less publication is excluded: a [SetPITRNominees] comes
    right after a fetch of the nominees. *)
Definition fetchFirst (rs : string) (new : list Event) : Prop :=
  forall pre n res post,
    new = pre ++ EvSetPITRNominees rs n res :: post ->
    exists pre' r, pre = pre' ++ [EvGetPITRNominees rs r].

(** The slot after a step holds no handle, or the handle it held before:
    the step installed none. *)
Definition keepsHandle (a a' : Agent) : Prop :=
  pitrjob a' = None \/ pitrjob a' = pitrjob a.

Section Quiet.
Context {W : Type}.

(** A computation that installs no handle and whose calls all satisfy [Q]. *)
Definition quiet {X} (Q : Event -> Prop) (f : @St W -> X * @St W) : Prop :=
  forall s,
    keepsHandle (agent s) (agent (snd (f s))) /\
    exists new, trace (snd (f s)) = trace s ++ new /\ Forall Q new.
End Quiet.

(** The calls of a tick before its catchup: no catchup and no start of the
    streaming goroutine. *)
Definition beforeCatchup (ev : Event) : Prop :=
  match ev with
  | EvCatchup _ _ _ => False
  | EvGo (GoStream _ _ _) => False
  | _ => True
  end.

Definition notNomineesRead (ev : Event) : Prop :=
  match ev with
  | EvGetPITRNominees _ _ => False
  | _ => True
  end.

Section Polling.
Variable NF : Event -> Prop.
Variables cyc tout : Duration.

Definition startsWithSelect (new : list Event) : Prop :=
  exists c t, new = EvSelect cyc tout c :: t.

(** One turn of a polling loop: it starts with the [select], and a
    not-found read is its last call, after which the turn ends without
    returning. *)
Definition turnOK {R} (new : list Event) (res : Res R unit) : Prop :=
  startsWithSelect new /\
  forall pre ev post, new = pre ++ ev :: post -> NF ev -> post = [] /\ res = Next tt.

(** After a not-found read the loop is back at its [select], unless the
    fuel of the model ends there. *)
Definition keepsPolling {R A} (new : list Event) (res : Res R A) : Prop :=
  forall pre ev post, new = pre ++ ev :: post -> NF ev ->
    startsWithSelect post \/ (post = [] /\ res = OutOfFuel).
End Polling.

(** A read of the nominees of [rs], of the cluster status, that found no
    document. *)
Definition nomineesNotFound (rs : string) (ev : Event) : Prop :=
  match ev with
  | EvGetPITRNominees rs' (_, Some e) => rs' = rs /\ errors.Is e ErrNotFound = true
  | _ => False
  end.

Definition statusNotFound (ev : Event) : Prop :=
  match ev with
  | EvGetClusterStatus (_, Some e) => errors.Is e ErrNotFound = true
  | _ => False
  end.

(** What a failed catchup in the trace of a tick entails: the tick returns
    the error wrapped, the catchup is directly followed by the release of
    the lock acquired before it, and no streaming goroutine is started. *)
Definition catchupFails {A} (new : list Event) (res : Res (option error) A) : Prop :=
  forall oo sl e,
    In (EvCatchup oo sl (Some e)) new ->
    res = Return (Some (Wrap e "catchup")) /\
    (exists pre lck rel,
        new = pre ++ EvCatchup oo sl (Some e) :: EvLockRelease lck rel :: releaseLog rel /\
        In (EvAcquireLock lck (true, None)) pre) /\
    (forall sl' lck' cfg', ~ In (EvGo (GoStream sl' lck' cfg')) new).

Section TickOK.
Context {W : Type}.

Definition tickOK {A} (m : M (@St W) (option error) A) : Prop :=
  forall s,
    keepsHandle (agent s) (agent (snd (m s))) /\
    exists new, trace (snd (m s)) = trace s ++ new /\ catchupFails new (fst (m s)).
End TickOK.

(** The same packages, with [f] deciding which error the write of the
    nominee ack reports; what the write does to the world is unchanged. *)
Definition withAckResult {W} (f : string -> string -> W -> option error)
           (D : Deps W) : Deps W :=
  {| config_GetConfig := config_GetConfig;
     config_GetEpoch := config_GetEpoch;
     config_OplogSlicerInterval := config_OplogSlicerInterval;
     defs_StaleFrameSec := defs_StaleFrameSec;
     lock_GetLocks := lock_GetLocks;
     lock_GetOpLockData := lock_GetOpLockData;
     acquireLock := acquireLock;
     lock_Release := lock_Release;
     backup_GetBackupByOPID := backup_GetBackupByOPID;
     topo_GetClusterTime := topo_GetClusterTime;
     topo_GetNodeInfoExt := topo_GetNodeInfoExt;
     topo_IsClusterLeader := topo_IsClusterLeader;
     topo_NodeSuits := topo_NodeSuits;
     topo_ListAgentStatuses := topo_ListAgentStatuses;
     topo_ClusterMembers := topo_ClusterMembers;
     prio_CalcNodesPriority := prio_CalcNodesPriority;
     oplog_InitMeta := oplog_InitMeta;
     oplog_IsOplogSlicing := oplog_IsOplogSlicing;
     oplog_SetPITRNomination := oplog_SetPITRNomination;
     oplog_GetPITRNominees := oplog_GetPITRNominees;
     oplog_SetPITRNominees := oplog_SetPITRNominees;
     oplog_SetPITRNomineeACK rs nd x := (f rs nd x, snd (oplog_SetPITRNomineeACK rs nd x));
     oplog_GetClusterStatus := oplog_GetClusterStatus;
     oplog_SetReadyRSStatus := oplog_SetReadyRSStatus;
     util_StorageFromConfig := util_StorageFromConfig;
     slicer_NewSlicer := slicer_NewSlicer;
     slicer_GetSpan := slicer_GetSpan;
     slicer_SetSpan := slicer_SetSpan;
     slicer_Catchup := slicer_Catchup;
     slicer_OplogOnlyCatchup := slicer_OplogOnlyCatchup;
     slicer_Stream := slicer_Stream;
     time_Sleep := time_Sleep;
     select_tick_or_timeout := select_tick_or_timeout;
     chan_make := chan_make;
     chan_send := chan_send;
     chan_close := chan_close;
     context_WithCancel := context_WithCancel;
     context_cancel := context_cancel;
     context_Done := context_Done |}.


(** ** A simulated cluster

    A small in-memory world that implements the imported packages, on which
    the coordinator can be run.  What the other agents and the clock do is
    scripted: [selects] is what the successive [select]s see, and
    [acksOnSleep] the acknowledgements written while this agent sleeps. *)

Module Sim.
Record World := {
  cfg : option config.Config;
  locks : list lock.LockData;
  backups : list backup.BackupMeta;
  clusterTime : primitive.Timestamp;
  nominations : list oplog.PITRNominee;
  status : option oplog.Status;
  node : option topo.NodeInfoExt;
  suits : bool;
  agents : list topo.AgentStat;
  shards : list topo.Shard;
  spans : list (SlicerRef * Duration);
  catchupErr : option error;
  streamErr : option error;
  selects : list SelectCase;
  acksOnSleep : list (string * string);
  sent : list (ChanRef * ctrl.OPID);
  nextRef : nat
}.

Definition with_locks (v : list lock.LockData) (x : World) : World :=
  {| cfg := cfg x; locks := v; backups := backups x; clusterTime := clusterTime x;
     nominations := nominations x; status := status x; node := node x;
     suits := suits x; agents := agents x; shards := shards x; spans := spans x;
     catchupErr := catchupErr x; streamErr := streamErr x; selects := selects x;
     acksOnSleep := acksOnSleep x; sent := sent x; nextRef := nextRef x |}.

Definition with_nominations (v : list oplog.PITRNominee) (x : World) : World :=
  {| cfg := cfg x; locks := locks x; backups := backups x; clusterTime := clusterTime x;
     nominations := v; status := status x; node := node x;
     suits := suits x; agents := agents x; shards := shards x; spans := spans x;
     catchupErr := catchupErr x; streamErr := streamErr x; selects := selects x;
     acksOnSleep := acksOnSleep x; sent := sent x; nextRef := nextRef x |}.

Definition with_status (v : option oplog.Status) (x : World) : World :=
  {| cfg := cfg x; locks := locks x; backups := backups x; clusterTime := clusterTime x;
     nominations := nominations x; status := v; node := node x;
     suits := suits x; agents := agents x; shards := shards x; spans := spans x;
     catchupErr := catchupErr x; streamErr := streamErr x; selects := selects x;
     acksOnSleep := acksOnSleep x; sent := sent x; nextRef := nextRef x |}.

Definition with_spans (v : list (SlicerRef * Duration)) (x : World) : World :=
  {| cfg := cfg x; locks := locks x; backups := backups x; clusterTime := clusterTime x;
     nominations := nominations x; status := status x; node := node x;
     suits := suits x; agents := agents x; shards := shards x; spans := v;
     catchupErr := catchupErr x; streamErr := streamErr x; selects := selects x;
     acksOnSleep := acksOnSleep x; sent := sent x; nextRef := nextRef x |}.

Definition with_selects (v : list SelectCase) (x : World) : World :=
  {| cfg := cfg x; locks := locks x; backups := backups x; clusterTime := clusterTime x;
     nominations := nominations x; status := status x; node := node x;
     suits := suits x; agents := agents x; shards := shards x; spans := spans x;
     catchupErr := catchupErr x; streamErr := streamErr x; selects := v;
     acksOnSleep := acksOnSleep x; sent := sent x; nextRef := nextRef x |}.

Definition with_acksOnSleep (v : list (string * string)) (x : World) : World :=
  {| cfg := cfg x; locks := locks x; backups := backups x; clusterTime := clusterTime x;
     nominations := nominations x; status := status x; node := node x;
     suits := suits x; agents := agents x; shards := shards x; spans := spans x;
     catchupErr := catchupErr x; streamErr := streamErr x; selects := selects x;
     acksOnSleep := v; sent := sent x; nextRef := nextRef x |}.

Definition with_sent (v : list (ChanRef * ctrl.OPID)) (x : World) : World :=
  {| cfg := cfg x; locks := locks x; backups := backups x; clusterTime := clusterTime x;
     nominations := nominations x; status := status x; node := node x;
     suits := suits x; agents := agents x; shards := shards x; spans := spans x;
     catchupErr := catchupErr x; streamErr := streamErr x; selects := selects x;
     acksOnSleep := acksOnSleep x; sent := v; nextRef := nextRef x |}.

Definition with_nextRef (v : nat) (x : World) : World :=
  {| cfg := cfg x; locks := locks x; backups := backups x; clusterTime := clusterTime x;
     nominations := nominations x; status := status x; node := node x;
     suits := suits x; agents := agents x; shards := shards x; spans := spans x;
     catchupErr := catchupErr x; streamErr := streamErr x; selects := selects x;
     acksOnSleep := acksOnSleep x; sent := sent x; nextRef := v |}.

Definition with_cfg (v : option config.Config) (x : World) : World :=
  {| cfg := v; locks := locks x; backups := backups x; clusterTime := clusterTime x;
     nominations := nominations x; status := status x; node := node x;
     suits := suits x; agents := agents x; shards := shards x; spans := spans x;
     catchupErr := catchupErr x; streamErr := streamErr x; selects := selects x;
     acksOnSleep := acksOnSleep x; sent := sent x; nextRef := nextRef x |}.

Definition with_backups (v : list backup.BackupMeta) (x : World) : World :=
  {| cfg := cfg x; locks := locks x; backups := v; clusterTime := clusterTime x;
     nominations := nominations x; status := status x; node := node x;
     suits := suits x; agents := agents x; shards := shards x; spans := spans x;
     catchupErr := catchupErr x; streamErr := streamErr x; selects := selects x;
     acksOnSleep := acksOnSleep x; sent := sent x; nextRef := nextRef x |}.

Definition with_catchupErr (v : option error) (x : World) : World :=
  {| cfg := cfg x; locks := locks x; backups := backups x;
     clusterTime := clusterTime x; nominations := nominations x; status := status x;
     node := node x; suits := suits x; agents := agents x; shards := shards x;
     spans := spans x; catchupErr := v; streamErr := streamErr x;
     selects := selects x; acksOnSleep := acksOnSleep x; sent := sent x;
     nextRef := nextRef x |}.

Definition with_streamErr (v : option error) (x : World) : World :=
  {| cfg := cfg x; locks := locks x; backups := backups x;
     clusterTime := clusterTime x; nominations := nominations x; status := status x;
     node := node x; suits := suits x; agents := agents x; shards := shards x;
     spans := spans x; catchupErr := catchupErr x; streamErr := v;
     selects := selects x; acksOnSleep := acksOnSleep x; sent := sent x;
     nextRef := nextRef x |}.

Definition zeroTimestamp : primitive.Timestamp :=
  {| primitive.T := 0; primitive.I := 0 |}.

Definition zeroLock : lock.LockData :=
  {| lock.Header := lock.zeroHeader; lock.Heartbeat := zeroTimestamp |}.

(** Two lock documents clash when they are for the same replica set and
    the same kind of operation. *)
Definition sameLock (h : lock.LockHeader) (l : lock.LockData) : bool :=
  String.eqb (lock.Type_ (lock.Header l)) (lock.Type_ h)
  && String.eqb (lock.Replset (lock.Header l)) (lock.Replset h).

Definition fresh (x : World) : nat * World := (nextRef x, with_nextRef (S (nextRef x)) x).

Definition setNominee (rs : string) (f : oplog.PITRNominee -> oplog.PITRNominee)
                      (x : World) : World :=
  with_nominations
    (map (fun n => if String.eqb (oplog.RS n) rs then f n else n) (nominations x)) x.

Definition setAck (rs node : string) : World -> World :=
  setNominee rs (fun n => {| oplog.RS := oplog.RS n; oplog.Nodes := oplog.Nodes n;
                             oplog.Ack := node |}).

Definition lookupSpan (s : SlicerRef) (x : World) : Duration :=
  match find (fun p => Nat.eqb (fst p) s) (spans x) with
  | Some p => snd p
  | None => 0%Z
  end.

#[export] Instance deps : Deps World := {|
  config_GetConfig x :=
    match cfg x with
    | Some c => (Some c, None)
    | None => (None, Some (Wrap ErrNoDocuments "get"))
    end;
  config_GetEpoch x :=
    match cfg x with
    | Some c => (config.Epoch c, None)
    | None => (zeroTimestamp, Some (Wrap ErrNoDocuments "get"))
    end;
  config_OplogSlicerInterval c :=
    if (config.OplogSpanMin (config.PITR c) =? 0)%Z
    then (10 * time.Minute)%Z
    else (config.OplogSpanMin (config.PITR c) * time.Minute)%Z;
  defs_StaleFrameSec := 30%Z;
  lock_GetLocks _ x := (locks x, None);
  lock_GetOpLockData h x :=
    match find (sameLock h) (locks x) with
    | Some l => (l, None)
    | None => (zeroLock, Some (Wrap ErrNoDocuments "get"))
    end;
  acquireLock h x :=
    if existsb (sameLock h) (locks x) then ((false, None), x)
    else ((true, None),
          with_locks ({| lock.Header := h; lock.Heartbeat := clusterTime x |} :: locks x) x);
  lock_Release h x :=
    (None, with_locks (filter (fun l => negb (sameLock h l)) (locks x)) x);
  backup_GetBackupByOPID opid x :=
    match find (fun b => String.eqb (backup.OPID b) opid) (backups x) with
    | Some b => (Some b, None)
    | None => (None, Some ErrNotFound)
    end;
  topo_GetClusterTime x := (clusterTime x, None);
  topo_GetNodeInfoExt x :=
    match node x with
    | Some n => (Some n, None)
    | None => (None, Some (New "get NodeInfo data"))
    end;
  topo_IsClusterLeader n := topo.IsPrimary n && topo.IsConfigSrv n;
  topo_NodeSuits _ x := (suits x, None);
  topo_ListAgentStatuses x := (agents x, None);
  topo_ClusterMembers x := (shards x, None);
  prio_CalcNodesPriority _ ags _ :=
    (Some (fun rs => [map topo.Node (filter (fun a => String.eqb (topo.RS a) rs) ags)]),
     None);
  oplog_InitMeta x :=
    (None, match status x with
           | Some _ => x
           | None => with_status (Some oplog.StatusReady) x
           end);
  oplog_IsOplogSlicing x :=
    (existsb (fun l => String.eqb (lock.Type_ (lock.Header l)) ctrl.CmdPITR) (locks x),
     None);
  oplog_SetPITRNomination rs x :=
    (None,
     with_nominations
       ({| oplog.RS := rs; oplog.Nodes := []; oplog.Ack := "" |}
          :: filter (fun n => negb (String.eqb (oplog.RS n) rs)) (nominations x)) x);
  oplog_GetPITRNominees rs x :=
    match find (fun n => String.eqb (oplog.RS n) rs) (nominations x) with
    | Some n => (Some n, None)
    | None => (None, Some ErrNotFound)
    end;
  oplog_SetPITRNominees rs nodes x :=
    (None, setNominee rs (fun n => {| oplog.RS := oplog.RS n; oplog.Nodes := nodes;
                                      oplog.Ack := oplog.Ack n |}) x);
  oplog_SetPITRNomineeACK rs nd x := (None, setAck rs nd x);
  oplog_GetClusterStatus x :=
    match status x with
    | Some st => (st, None)
    | None => ("", Some ErrNotFound)
    end;
  oplog_SetReadyRSStatus _ _ x := (None, x);
  util_StorageFromConfig stg x :=
    if String.eqb stg "" then ((None, Some (New "storage undefined")), x)
    else ((Some O, None), x);
  slicer_NewSlicer _ _ _ x :=
    let (r, x') := fresh x in (r, with_spans ((r, 0%Z) :: spans x') x');
  slicer_GetSpan := lookupSpan;
  slicer_SetSpan s d x := with_spans ((s, d) :: spans x) x;
  slicer_Catchup _ x := (catchupErr x, x);
  slicer_OplogOnlyCatchup _ x := (catchupErr x, x);
  slicer_Stream _ _ _ _ _ _ x := (streamErr x, x);
  time_Sleep _ x :=
    match acksOnSleep x with
    | (rs, nd) :: rest => with_acksOnSleep rest (setAck rs nd x)
    | [] => x
    end;
  select_tick_or_timeout _ _ x :=
    match selects x with
    | c :: rest => (c, with_selects rest x)
    | [] => (TimeoutFired, x)
    end;
  chan_make := fresh;
  chan_send ch opid x := with_sent (sent x ++ [(ch, opid)]) x;
  chan_close _ x := x;
  context_WithCancel := fresh;
  context_cancel _ x := x;
  context_Done _ x := x
|}.

(** A quiet cluster: one replica set [rs0] with the node [n1:27017] of
    this agent, PITR enabled with a one-minute span, nothing locked. *)
Definition cfg0 : config.Config :=
  {| config.PITR := {| config.Enabled := true; config.OplogOnly := false;
                       config.OplogSpanMin := 1; config.Priority := [];
                       config.Compression := "s2"; config.CompressionLevel := None |};
     config.Storage := "s3";
     config.Timeouts := None;
     config.Epoch := {| primitive.T := 1700000000; primitive.I := 1 |} |}.

Definition world0 : World :=
  {| cfg := Some cfg0; locks := []; backups := [];
     clusterTime := {| primitive.T := 1700000100; primitive.I := 1 |};
     nominations := []; status := Some oplog.StatusReady;
     node := Some {| topo.SetName := "rs0"; topo.Me := "n1:27017";
                     topo.IsPrimary := false; topo.IsConfigSrv := false |};
     suits := true;
     agents := [{| topo.Node := "n1:27017"; topo.RS := "rs0" |}];
     shards := [{| topo.ID := "rs0"; topo.ShardRS := "rs0"; topo.Host := "rs0/n1:27017" |}];
     spans := []; catchupErr := None; streamErr := None;
     selects := []; acksOnSleep := []; sent := []; nextRef := 1 |}.

Definition agent0 : Agent :=
  {| brief := {| SetName := "rs0"; Me := "n1:27017" |};
     pitrjob := None; prevOO := None |}.

Definition start (a : Agent) (x : World) : @St World :=
  {| agent := a; world := x; trace := [] |}.

(** *** Scenarios *)

Definition me : string := "n1:27017".

(** An agent that already runs slicer 7. *)
Definition job7 : currentPitr := {| slicer := 7; w := 8; cancel := 9 |}.

Definition slicingAgent : Agent :=
  {| brief := brief agent0; pitrjob := Some job7; prevOO := Some false |}.

(** Slicer 7 runs with a ten-minute span; the configured span is one
    minute. *)
Definition slicingWorld : World := with_spans [(7, (10 * time.Minute)%Z)] world0.

Definition header (type opid : string) : lock.LockHeader :=
  {| lock.Type_ := type; lock.Replset := "rs0"; lock.Node := "n2:27017";
     lock.OPID := opid; lock.Epoch := None |}.

Definition lockOf (type opid : string) : lock.LockData :=
  {| lock.Header := header type opid;
     lock.Heartbeat := {| primitive.T := 1700000090; primitive.I := 1 |} |}.

Definition restoreLock : lock.LockData := lockOf "restore" "op-restore".
Definition resyncLock : lock.LockData := lockOf "resync" "op-resync".
Definition physicalLock : lock.LockData := lockOf "backup" "op-physical".

(** A backup lock whose backup metadata is not there to be read. *)
Definition orphanLock : lock.LockData := lockOf "backup" "op-orphan".

Definition physicalBackup : backup.BackupMeta :=
  {| backup.Type_ := "physical"; backup.OPID := "op-physical";
     backup.Name := "2023-11-14T22:13:20Z" |}.

(** The same cluster while a restore holds its lock. *)
Definition restoringWorld : World := with_locks [restoreLock] slicingWorld.

(** Another member holds the PITR lock with heartbeat [h]. *)
Definition heldWorld (h : Z) : World :=
  with_locks [{| lock.Header := header "pitr" "";
                 lock.Heartbeat := {| primitive.T := h; primitive.I := 1 |} |}] world0.

(** This node is nominated; [catchup] decides how its catchup ends. *)
Definition nominatedWorld (catchup : option error) : World :=
  with_catchupErr catchup
    (with_selects [TickFired; TickFired]
       (with_nominations
          [{| oplog.RS := "rs0"; oplog.Nodes := [me]; oplog.Ack := "" |}] world0)).

(** No PITR meta yet: neither status nor nominees are found at the first
    polls. *)
Definition unpreparedWorld : World :=
  with_status None (with_selects [TickFired; TickFired] world0).
End Sim.

(** * Properties of the coordinator *)

(** Unfolding of the monad, one layer at a time. *)
Ltac mstep :=
  unfold run, call, bind, pure, ret, panic, outOfFuel, when, whenSome, deref,
    obs, ext, act, logf, go, getAgent, setAgent in *;
  cbn -[Nat.ltb String.length String.eqb errors.Is Z.ltb Z.gtb Z.eqb Z.mul] in *.

Ltac gcbn :=
  cbn -[Nat.ltb String.length String.eqb errors.Is Z.ltb Z.gtb Z.eqb Z.mul] in *.

Section Lists.
Context {A : Type}.

Lemma cons_eq_app_cons (a : A) l pre x post :
  a :: l = pre ++ x :: post ->
  (pre = [] /\ a = x /\ l = post) \/
  (exists pre', pre = a :: pre' /\ l = pre' ++ x :: post).
Proof.
  destruct pre as [|p pre']; cbn; intros E; inversion E; subst; eauto.
Qed.

Lemma nil_eq_app_cons pre (x : A) post : [] = pre ++ x :: post -> False.
Proof. destruct pre; discriminate. Qed.

Lemma Forall_not_in (P : A -> Prop) l pre x post :
  Forall P l -> l = pre ++ x :: post -> P x.
Proof.
  intros H ->. rewrite Forall_forall in H. apply H.
  apply in_or_app. right. left. reflexivity.
Qed.

Lemma app_eq_app_cons (l1 l2 pre : list A) x post :
  l1 ++ l2 = pre ++ x :: post ->
  (exists post1, l1 = pre ++ x :: post1 /\ post = post1 ++ l2) \/
  (exists pre2, pre = l1 ++ pre2 /\ l2 = pre2 ++ x :: post).
Proof.
  revert pre. induction l1 as [|a l1 IH]; intros pre H; cbn in *.
  - right. exists pre. auto.
  - destruct pre as [|p pre]; cbn in *; inversion H; subst.
    + left. exists l1. auto.
    + destruct (IH pre H2) as [(post1 & -> & ->) | (pre2 & -> & ->)].
      * left. eauto.
      * right. eauto.
Qed.
End Lists.

(** Finds where an event sits in a trace given by its first events. *)
Ltac split_head H :=
  match type of H with
  | [] = _ ++ _ :: _ => exfalso; exact (nil_eq_app_cons _ _ _ H)
  | _ :: _ = ?pre ++ _ :: _ =>
      let E := fresh "E" in
      let pre' := fresh "pre" in
      apply cons_eq_app_cons in H;
      destruct H as [(-> & E & <-) | (pre' & -> & H)];
      [ try discriminate E | split_head H ]
  | _ => idtac
  end.

Section CoordinatorFacts.
Context {W : Type} {D : Deps W}.

(** ** The mode-change watchdog *)

(** C10: on its first call (no remembered value) [stopPitrOnOplogOnlyChange]
    records the observed value and leaves the handle, the world and the
    trace alone; a call with the remembered value changes nothing at all;
    the handle changes only when a remembered value differs from the
    observed one, and then it is removed (its cancel function called) and
    the new value remembered. *)
Theorem stopPitrOnOplogOnlyChange_frame (currOO : bool) (s : St) :
  let r := stopPitrOnOplogOnlyChange currOO s in
  fst r = Returned tt /\
  (prevOO (agent s) = None ->
     snd r = {| agent := {| brief := brief (agent s); pitrjob := pitrjob (agent s);
                            prevOO := Some currOO |};
                world := world s; trace := trace s |}) /\
  (prevOO (agent s) = Some currOO -> snd r = s) /\
  (pitrjob (agent (snd r)) <> pitrjob (agent s) ->
     exists prev, prevOO (agent s) = Some prev /\ prev <> currOO /\
                  pitrjob (agent (snd r)) = None) /\
  (forall prev, prevOO (agent s) = Some prev -> prev <> currOO ->
     pitrjob (agent (snd r)) = None /\ prevOO (agent (snd r)) = Some currOO /\
     trace (snd r) = trace s ++ match pitrjob (agent s) with
                                | Some old => [EvCancel (cancel old)]
                                | None => []
                                end).
Proof.
  destruct s as [[b job oo] x tr]. cbn.
  unfold stopPitrOnOplogOnlyChange, run, bind, getAgent; cbn.
  destruct oo as [prev|]; cbn.
  - destruct (Bool.eqb prev currOO) eqn:E; cbn.
    + apply Bool.eqb_prop in E. subst.
      repeat split; try congruence.
    + assert (prev <> currOO) by (intros ->; rewrite Bool.eqb_reflx in E; discriminate).
      unfold removePitr, setPitr, call, run, bind, getAgent, setAgent, whenSome; cbn.
      destruct job as [old|]; cbn; repeat split; try congruence; eauto.
      rewrite app_nil_r; reflexivity.
  - repeat split; try congruence.
Qed.

(** ** The concurrency gate *)

Lemma checkLock_world l s : world (snd (checkLock l s)) = world s.
Proof.
  unfold checkLock. mstep.
  destruct (negb _); cbn; auto.
  destruct (backup_GetBackupByOPID _ _) as [[bcp|] [e|]]; cbn; auto.
  destruct (String.eqb _ _); auto.
Qed.

Lemma checkLock_next l s :
  fst (checkLock l s) = Next tt <-> physicalBackupLock (world s) l.
Proof.
  unfold checkLock, physicalBackupLock. mstep.
  destruct (String.eqb_spec (lock.Type_ (lock.Header l)) ctrl.CmdBackup) as [E|E]; cbn.
  - destruct (backup_GetBackupByOPID _ _) as [[bcp|] [e|]]; cbn;
      try (split; [discriminate | intros (_ & b & Hb & _); discriminate]).
    destruct (String.eqb_spec (backup.Type_ bcp) defs.LogicalBackup) as [E'|E']; cbn.
    + split; [discriminate|]. intros (_ & b & Hb & Hn). congruence.
    + split; auto. intros _. split; auto. exists bcp. auto.
  - split; [discriminate|]. intros [? _]; contradiction.
Qed.

Lemma checkLock_blocking l s :
  blockingLock (world s) l ->
  fst (checkLock l s) = Return (Some (ConcurrentOpError (lock.Header l))).
Proof.
  unfold checkLock, blockingLock. mstep.
  destruct (String.eqb_spec (lock.Type_ (lock.Header l)) ctrl.CmdBackup) as [E|E]; cbn.
  - intros [H | (bcp & -> & Hl)]; [contradiction|]. cbn.
    rewrite Hl. reflexivity.
  - reflexivity.
Qed.

Lemma checkLock_return l s r : fst (checkLock l s) = Return r -> r <> None.
Proof.
  unfold checkLock. mstep.
  destruct (negb _); cbn; [congruence|].
  destruct (backup_GetBackupByOPID _ _) as [[bcp|] [e|]]; cbn; try congruence.
  destruct (String.eqb _ _); cbn; congruence.
Qed.

Lemma forEach_checkLock_world locks : forall s,
  world (snd (forEach locks checkLock s)) = world s.
Proof.
  induction locks as [|l rest IH]; intros s; cbn; auto.
  unfold bind. pose proof (checkLock_world l s) as Hw.
  destruct (checkLock l s) as [[[]| | |] s1]; cbn in *; auto.
  rewrite IH; auto.
Qed.

Lemma forEach_checkLock_return locks : forall s r,
  fst (forEach locks checkLock s) = Return r -> r <> None.
Proof.
  induction locks as [|l rest IH]; intros s r; cbn; [discriminate|].
  unfold bind. pose proof (checkLock_return l s) as Hr.
  destruct (checkLock l s) as [[[]| | |] s1]; cbn in *; try discriminate.
  - apply IH.
  - intros E. apply Hr. congruence.
Qed.

Lemma forEach_checkLock_next locks : forall s,
  fst (forEach locks checkLock s) = Next tt <->
  Forall (physicalBackupLock (world s)) locks.
Proof.
  induction locks as [|l rest IH]; intros s; cbn.
  - split; auto.
  - unfold bind.
    pose proof (checkLock_world l s) as Hw.
    pose proof (checkLock_next l s) as Hn.
    destruct (checkLock l s) as [[[]| | |] s1]; cbn in *.
    + rewrite IH, Hw. split.
      * intros; constructor; auto. apply Hn; auto.
      * intros H; inversion H; auto.
    + split; [discriminate|]. intros H; inversion H; subst.
      apply Hn in H2; discriminate.
    + split; [discriminate|]. intros H; inversion H; subst.
      apply Hn in H2; discriminate.
    + split; [discriminate|]. intros H; inversion H; subst.
      apply Hn in H2; discriminate.
Qed.

Lemma forEach_checkLock_blocked pre l post : forall s,
  Forall (physicalBackupLock (world s)) pre ->
  blockingLock (world s) l ->
  fst (forEach (pre ++ l :: post) checkLock s) =
  Return (Some (ConcurrentOpError (lock.Header l))).
Proof.
  induction pre as [|p pre IH]; intros s Hpre Hl; cbn; unfold bind.
  - pose proof (checkLock_blocking l s Hl) as Hb.
    destruct (checkLock l s) as [[[]| | |] s1]; cbn in *; congruence.
  - inversion Hpre as [|? ? Hp Hrest]; subst.
    pose proof (checkLock_world p s) as Hw.
    apply checkLock_next in Hp.
    destruct (checkLock p s) as [[[]| | |] s1]; cbn in *; try discriminate.
    apply IH; rewrite Hw; auto.
Qed.

Lemma forEach_checkLock_failed pre l post bcp e : forall s,
  Forall (physicalBackupLock (world s)) pre ->
  lock.Type_ (lock.Header l) = ctrl.CmdBackup ->
  backup_GetBackupByOPID (lock.OPID (lock.Header l)) (world s) = (bcp, Some e) ->
  fst (forEach (pre ++ l :: post) checkLock s) =
  Return (Some (Wrap e "get backup metadata")).
Proof.
  induction pre as [|p pre IH]; intros s Hpre Ht Hl; cbn; unfold bind.
  - unfold checkLock. mstep. rewrite Ht. cbn. rewrite Hl. cbn. reflexivity.
  - inversion Hpre as [|? ? Hp Hrest]; subst.
    pose proof (checkLock_world p s) as Hw.
    apply checkLock_next in Hp.
    destruct (checkLock p s) as [[[]| | |] s1]; cbn in *; try discriminate.
    apply IH; try rewrite Hw; auto.
Qed.

(** C2, as the code has it: once the locks are read, [canSlicingNow]
    returns nil exactly when every lock is a backup lock whose backup
    metadata is read and is not logical.  Otherwise the scan stops at the
    first lock that is not one: if that lock is not a backup lock, or is
    the lock of a logical backup, the result is a [ConcurrentOpError] with
    that lock's header; if its backup metadata cannot be read, the result
    is that read error, wrapped. *)
Theorem canSlicingNow_gate (s : St) (locks : list lock.LockData) :
  lock_GetLocks lock.zeroHeader (world s) = (locks, None) ->
  (fst (canSlicingNow s) = Returned None <->
   Forall (physicalBackupLock (world s)) locks) /\
  (forall pre l post,
     locks = pre ++ l :: post ->
     Forall (physicalBackupLock (world s)) pre ->
     blockingLock (world s) l ->
     fst (canSlicingNow s) = Returned (Some (ConcurrentOpError (lock.Header l)))) /\
  (forall pre l post bcp e,
     locks = pre ++ l :: post ->
     Forall (physicalBackupLock (world s)) pre ->
     lock.Type_ (lock.Header l) = ctrl.CmdBackup ->
     backup_GetBackupByOPID (lock.OPID (lock.Header l)) (world s) = (bcp, Some e) ->
     fst (canSlicingNow s) = Returned (Some (Wrap e "get backup metadata"))).
Proof.
  intros Hl. unfold canSlicingNow, run, bind, obs. rewrite Hl. cbn.
  set (s1 := emit _ s).
  assert (Hw : world s1 = world s) by reflexivity.
  rewrite <- Hw.
  split; [|split].
  - rewrite <- forEach_checkLock_next.
    pose proof (forEach_checkLock_return locks s1) as Hr.
    destruct (forEach locks checkLock s1) as [[[]| | |] s2]; cbn in *;
      split; try congruence.
    intros E. exfalso. apply (Hr r); congruence.
  - intros pre l post -> Hpre Hb.
    pose proof (forEach_checkLock_blocked pre l post s1 Hpre Hb) as H.
    destruct (forEach _ checkLock s1) as [[[]| | |] s2]; cbn in *; congruence.
  - intros pre l post bcp e -> Hpre Ht He.
    pose proof (forEach_checkLock_failed pre l post bcp e s1 Hpre Ht He) as H.
    destruct (forEach _ checkLock s1) as [[[]| | |] s2]; cbn in *; congruence.
Qed.

(** ** The stale-lock pre-check *)

(** C3: with the cluster time [T] read, and the lock document either read
    (heartbeat [H]) or missing, [pitrLockCheck] returns without error, and
    [move_on] is true exactly when the document is missing or
    [H + StaleFrameSec < T], the sum being the 32-bit sum of the code.
    For timestamps in the 32-bit range: at [H + StaleFrameSec = T] the
    lock is not stale and [move_on] is false; at [H + StaleFrameSec < T]
    it is stale and [move_on] is true; and as long as the sum does not
    exceed the range it is the plain sum that is compared. *)
Theorem pitrLockCheck_stale (s : St) ts tl oerr :
  topo_GetClusterTime (world s) = (ts, None) ->
  lock_GetOpLockData
    {| lock.Type_ := ctrl.CmdPITR; lock.Replset := SetName (brief (agent s));
       lock.Node := ""; lock.OPID := ""; lock.Epoch := None |} (world s) = (tl, oerr) ->
  (forall e, oerr = Some e -> errors.Is e ErrNoDocuments = true) ->
  let H := primitive.T (lock.Heartbeat tl) in
  let T := primitive.T ts in
  exists moveOn,
    fst (pitrLockCheck s) = Returned (moveOn, None) /\
    (moveOn = true <->
     oerr <> None \/ (primitive.wrap32 (H + defs_StaleFrameSec) < T)%Z) /\
    (primitive.is_uint32 T -> (0 <= H)%Z -> (0 <= defs_StaleFrameSec)%Z ->
     (oerr = None -> (H + defs_StaleFrameSec = T)%Z -> moveOn = false) /\
     (oerr = None -> (H + defs_StaleFrameSec < T)%Z -> moveOn = true) /\
     ((H + defs_StaleFrameSec <= primitive.uint32_max)%Z ->
      (moveOn = true <-> oerr <> None \/ (H + defs_StaleFrameSec < T)%Z))).
Proof.
  intros Hts Htl Herr H T.
  unfold pitrLockCheck, run, bind, getAgent, obs. cbn.
  rewrite Hts. cbn. rewrite Htl. cbn.
  destruct oerr as [e|]; cbn.
  - rewrite (Herr e eq_refl). cbn. exists true.
    split; [reflexivity|]. split.
    + split; auto. intros _. left; discriminate.
    + intros _ _ _. repeat split; try discriminate; auto.
      intros _. left; discriminate.
  - fold H T. eexists. split; [reflexivity|]. split.
    + rewrite Z.ltb_lt. split; auto. intros [C|C]; congruence.
    + intros [HT0 HT1] HH HS.
      unfold primitive.wrap32, primitive.uint32_max in *.
      split; [|split].
      * intros _ E. apply Z.ltb_ge. rewrite Z.mod_small by lia. lia.
      * intros _ E. apply Z.ltb_lt. rewrite Z.mod_small by lia. lia.
      * intros Hb. rewrite Z.ltb_lt. rewrite Z.mod_small by lia.
        split; auto. intros [C|C]; congruence.
Qed.

(** ** The nomination driver *)

Lemma nominateTier_tierOK rs n (s : @St W) :
  exists new,
    trace (snd (nominateTier rs n s)) = trace s ++ new /\
    tierOK rs new (fst (nominateTier rs n s)) /\
    fetchFirst rs new /\
    completes (fst (nominateTier rs n s)).
Proof.
  unfold nominateTier. mstep.
  destruct (oplog_GetPITRNominees rs (world s)) as [nms [e|]];
    [destruct (errors.Is e ErrNotFound)|]; gcbn;
    try (destruct nms as [nm0|]; gcbn;
         [destruct (0 <? String.length (oplog.Ack nm0))%nat eqn:Hack; gcbn|]);
    try (destruct (oplog_SetPITRNominees rs n (world s)) as [[e'|] w']; gcbn);
    unfold emit; cbn;
    (eexists; rewrite <- ?app_assoc; split; [reflexivity|]);
    (split; [|split; [|exact I]]);
    try (intros pre n0 res post H; cbn in H; split_head H;
         eexists [], _; reflexivity);
    intros pre nm err post H; try intros Hlen; cbn in H; split_head H;
    try (inversion E; subst; apply Nat.ltb_ge in Hack; lia);
    split; eauto; repeat constructor.
Qed.

Lemma forEach_nominateTier_ackStops rs nodes : forall (s : @St W),
  exists new,
    trace (snd (forEach nodes (nominateTier rs) s)) = trace s ++ new /\
    ackStops rs new (fst (forEach nodes (nominateTier rs) s)) /\
    fetchFirst rs new /\
    completes (fst (forEach nodes (nominateTier rs) s)).
Proof.
  induction nodes as [|n rest IH]; intros s; cbn.
  - exists []. rewrite app_nil_r.
    split; [reflexivity|]. split; [|split; [|exact I]].
    + intros pre nm err post H. split_head H.
    + intros pre n res post H. split_head H.
  - unfold bind.
    destruct (nominateTier_tierOK rs n s) as (new0 & Ht0 & Hok & Hff & Hc).
    destruct (nominateTier rs n s) as [[[]| | |] s1]; cbn in *; eauto;
      try contradiction.
    destruct (IH s1) as (new1 & Ht1 & Hs & Hff1 & Hc1).
    exists (new0 ++ new1). rewrite Ht1, Ht0, app_assoc.
    split; [reflexivity|]. split; [|split; [|assumption]].
    + intros pre nm err post H Hlen.
      apply app_eq_app_cons in H.
      destruct H as [(post1 & -> & ->) | (pre2 & -> & ->)].
      * exfalso. eapply Hok; eauto.
      * eapply Hs; eauto.
    + intros pre n0 res post H.
      apply app_eq_app_cons in H.
      destruct H as [(post1 & E & ->) | (pre2 & -> & E)].
      * eapply Hff; eauto.
      * destruct (Hff1 _ _ _ _ E) as (pre' & r & ->).
        exists (new0 ++ pre'), r. rewrite app_assoc. reflexivity.
Qed.

(** C1: a nomination round returns, and in its trace every
    [SetPITRNominees] comes right after a fetch of the nominees, and a
    fetch that shows a non-empty ack is followed by log lines only: no
    [SetPITRNominees] and no further fetch, for the tier at hand or any
    later one. *)
Theorem nominateRSForPITR_stops_on_ack rs nodes (s : @St W) new :
  trace (snd (nominateRSForPITR rs nodes s)) = trace s ++ new ->
  (exists r, fst (nominateRSForPITR rs nodes s) = Returned r) /\
  fetchFirst rs new /\
  (forall pre nm err post,
      new = pre ++ EvGetPITRNominees rs (Some nm, err) :: post ->
      (0 < String.length (oplog.Ack nm))%nat ->
      Forall isLog post /\
      (forall n res, ~ In (EvSetPITRNominees rs n res) post) /\
      (forall res, ~ In (EvGetPITRNominees rs res) post)).
Proof.
  unfold nominateRSForPITR, run. mstep.
  destruct (oplog_SetPITRNomination rs (world s)) as [[e|] w1]; gcbn.
  - intros H. rewrite <- app_assoc in H. apply app_inv_head in H. subst new.
    split; [eauto|]. split.
    + intros pre n res post H. cbn in H. split_head H.
    + intros pre nm err post H. cbn in H. split_head H.
  - match goal with |- context [forEach nodes _ ?s1] =>
      destruct (forEach_nominateTier_ackStops rs nodes s1)
        as (new1 & Ht & Hs & Hff & Hc);
      destruct (forEach nodes (nominateTier rs) s1) as [res s2] end.
    cbn in Ht, Hs, Hc.
    intros H.
    replace (trace (snd _)) with (trace s2) in H by (destruct res; reflexivity).
    rewrite Ht, <- !app_assoc in H. apply app_inv_head in H. subst new.
    split; [destruct res as [[]|r| |]; try contradiction; cbn; eauto|].
    split.
    + intros pre n res0 post H. cbn in H. split_head H.
      destruct (Hff _ _ _ _ H) as (pre' & r & ->).
      eexists (_ :: _ :: pre'), r. reflexivity.
    + intros pre nm err post H Hlen. cbn in H. split_head H.
      destruct (Hs _ _ _ _ H Hlen) as [_ Hlog].
      rewrite Forall_forall in Hlog.
      repeat split.
      * rewrite Forall_forall; auto.
      * intros n res0 Hin. apply (Hlog _ Hin).
      * intros res0 Hin. apply (Hlog _ Hin).
Qed.

(** C8, as the code has it: a tier is published and slept on whatever it
    holds, the empty list included.  When the fetch shows no ack and
    fails at most with not-found, and the write succeeds, the loop body
    calls [SetPITRNominees] with the tier, sleeps [pitrRenominationFrame]
    and only then falls through to the next tier. *)
Theorem nominateTier_publishes_and_sleeps rs n (s : St) nms err w' :
  oplog_GetPITRNominees rs (world s) = (nms, err) ->
  (forall e, err = Some e -> errors.Is e ErrNotFound = true) ->
  (forall nm, nms = Some nm -> String.length (oplog.Ack nm) = 0%nat) ->
  oplog_SetPITRNominees rs n (world s) = (None, w') ->
  nominateTier rs n s =
    (Next tt,
     {| agent := agent s;
        world := time_Sleep pitrRenominationFrame w';
        trace := trace s ++
                 [EvGetPITRNominees rs (nms, err);
                  EvSetPITRNominees rs n None;
                  EvLog DebugLevel "pitr nomination %s, set candidates %v";
                  EvSleep pitrRenominationFrame] |}).
Proof.
  intros Hget Herr Hack Hset.
  unfold nominateTier. mstep. rewrite Hget. cbn -[Nat.ltb String.length].
  destruct err as [e|]; [rewrite (Herr e eq_refl)|];
    (destruct nms as [nm|]; [rewrite (Hack nm eq_refl)|]);
    cbn; rewrite Hset; cbn; unfold emit; cbn; rewrite <- ?app_assoc; reflexivity.
Qed.

(** ** The streaming goroutine *)

(** C6: the trace of the streaming goroutine is its setup, the stream
    call, the release of the lock and, only when the stream call returned
    an error, the sleep of [2 * pitrCheckPeriod], in this order (log lines
    in between); no release and no sleep happen before the stream call. *)
Theorem streamTask_release_before_penalty sl lck cfg (s : St) :
  exists setup stopC wk res rel c,
    fst (streamTask sl lck cfg s) = Returned tt /\
    trace (snd (streamTask sl lck cfg s)) =
      trace s ++ setup ++ [EvStream sl stopC wk res] ++ streamLog res
              ++ [EvLockRelease lck rel] ++ releaseLog rel
              ++ penalty res ++ [EvCancel c] /\
    (forall ev, In ev setup ->
       match ev with
       | EvStream _ _ _ _ | EvLockRelease _ _ | EvSleep _ => False
       | _ => True
       end) /\
    (pitrCheckPeriod * 2 = 30 * time.Second)%Z.
Proof.
  unfold streamTask, setPitr. mstep.
  destruct (context_WithCancel (world s)) as [c w1]; cbn.
  destruct (chan_make w1) as [stopC w2]; cbn.
  destruct (chan_make w2) as [wk w3]; cbn.
  destruct (pitrjob (agent s)) as [old|]; cbn;
    destruct (slicer_Stream _ _ _ _ _ _ _) as [res w4];
    destruct (lock_Release lck w4) as [rel w5] eqn:Hrel;
    [ exists [EvWithCancel c; EvMakeChan stopC; EvMakeChan wk;
              EvCancel (cancel old); EvGo (GoWatch c stopC)]
    | exists [EvWithCancel c; EvMakeChan stopC; EvMakeChan wk;
              EvGo (GoWatch c stopC)] ];
    exists stopC, wk, res, rel, c;
    (split; [|split; [|split; [|reflexivity]]]);
    try (intros ev Hin; cbn in Hin; intuition (subst; exact I));
    destruct res as [e|]; cbn;
    try destruct (errors.Is e (OpMovedError "")); cbn;
    rewrite Hrel; cbn; destruct rel; cbn; unfold emit; cbn;
    rewrite <- ?app_assoc; reflexivity.
Qed.
End CoordinatorFacts.

Section QuietFacts.
Context {W : Type} {D : Deps W}.
Variable Q : Event -> Prop.
Local Abbreviation St := (@St W).

Lemma keepsHandle_refl a : keepsHandle a a.
Proof. right; reflexivity. Qed.

Lemma keepsHandle_trans a b c : keepsHandle a b -> keepsHandle b c -> keepsHandle a c.
Proof. unfold keepsHandle. intros [H|H] [H'|H']; rewrite ?H', ?H; auto. Qed.

Lemma quiet_same {X} (f : St -> X * St) :
  (forall s, snd (f s) = s) -> quiet Q f.
Proof.
  intros H s. rewrite H. split; [apply keepsHandle_refl|].
  exists []. rewrite app_nil_r. auto.
Qed.

Lemma quiet_pure {R A} (a : A) : quiet Q (pure (S:=St) (R:=R) a).
Proof. apply quiet_same; reflexivity. Qed.

Lemma quiet_ret {R A} (r : R) : quiet Q (ret (S:=St) (A:=A) r).
Proof. apply quiet_same; reflexivity. Qed.

Lemma quiet_panic {R A} : quiet Q (panic (S:=St) (R:=R) (A:=A)).
Proof. apply quiet_same; reflexivity. Qed.

Lemma quiet_outOfFuel {R A} : quiet Q (outOfFuel (S:=St) (R:=R) (A:=A)).
Proof. apply quiet_same; reflexivity. Qed.

Lemma quiet_getAgent {R} : quiet Q (getAgent (W:=W) (R:=R)).
Proof. apply quiet_same; reflexivity. Qed.

Lemma quiet_emit {R A} (ev : Event) (a : A) :
  Q ev -> quiet Q (fun s : St => (@Next R A a, emit ev s)).
Proof.
  intros H s. cbn. split; [apply keepsHandle_refl|].
  exists [ev]. auto.
Qed.

Lemma quiet_logf {R} lvl fmt : Q (EvLog lvl fmt) -> quiet Q (logf (W:=W) (R:=R) lvl fmt).
Proof. apply quiet_emit. Qed.

Lemma quiet_go {R} task : Q (EvGo task) -> quiet Q (go (W:=W) (R:=R) task).
Proof. apply quiet_emit. Qed.

Lemma quiet_obs {R A} (op : W -> A) ev :
  (forall a, Q (ev a)) -> quiet Q (obs (R:=R) op ev).
Proof.
  intros H s. unfold obs. cbn. split; [apply keepsHandle_refl|].
  eexists [_]. auto.
Qed.

Lemma quiet_ext {R A} (op : W -> A * W) ev :
  (forall a, Q (ev a)) -> quiet Q (ext (R:=R) op ev).
Proof.
  intros H s. unfold ext. destruct (op (world s)) as [a w']. cbn.
  split; [apply keepsHandle_refl|]. eexists [_]. auto.
Qed.

Lemma quiet_act {R} (op : W -> W) ev : Q ev -> quiet Q (act (R:=R) op ev).
Proof. intros H. apply quiet_ext. auto. Qed.

Lemma quiet_bind {R A B} (m : M St R A) (k : A -> M St R B) :
  quiet Q m -> (forall a, quiet Q (k a)) -> quiet Q (bind m k).
Proof.
  intros Hm Hk s. unfold bind.
  destruct (Hm s) as (Ha & new & Ht & Hq).
  destruct (m s) as [[a|r| |] s1]; cbn in *; eauto.
  destruct (Hk a s1) as (Ha' & new' & Ht' & Hq').
  split; [eapply keepsHandle_trans; eauto|].
  exists (new ++ new'). rewrite Ht', Ht, app_assoc. split; auto.
  apply Forall_app; auto.
Qed.

Lemma quiet_when {R} b (m : M St R unit) : quiet Q m -> quiet Q (when b m).
Proof. destruct b; cbn; auto using quiet_pure. Qed.

Lemma quiet_whenSome {R X} (o : option X) (f : X -> M St R unit) :
  (forall x, quiet Q (f x)) -> quiet Q (whenSome o f).
Proof. destruct o; cbn; auto using quiet_pure. Qed.

Lemma quiet_deref {R X} (p : option X) : quiet Q (deref (S:=St) (R:=R) p).
Proof. destruct p; cbn; auto using quiet_pure, quiet_panic. Qed.

Lemma quiet_run {R} (body : M St R R) : quiet Q body -> quiet Q (run body).
Proof.
  intros H s. unfold run. destruct (H s) as (Ha & new & Ht & Hq).
  destruct (body s) as [[a|r| |] s1]; cbn in *; eauto.
Qed.

Lemma quiet_call {R X} (f : Fn St X) : quiet Q f -> quiet Q (call (R:=R) f).
Proof.
  intros H s. unfold call. destruct (H s) as (Ha & new & Ht & Hq).
  destruct (f s) as [[x| |] s1]; cbn in *; eauto.
Qed.

Lemma quiet_forEach {R X} (xs : list X) (body : X -> M St R unit) :
  (forall x, quiet Q (body x)) -> quiet Q (forEach xs body).
Proof.
  intros H. induction xs as [|x rest IH]; cbn.
  - apply quiet_pure.
  - apply quiet_bind; auto.
Qed.

Lemma quiet_forever {R A} fuel (body : M St R unit) :
  quiet Q body -> quiet Q (forever (A:=A) fuel body).
Proof.
  intros H. induction fuel as [|n IH]; cbn.
  - apply quiet_outOfFuel.
  - apply quiet_bind; auto.
Qed.

Lemma quiet_setPitr_None : (forall c, Q (EvCancel c)) -> quiet Q (setPitr (W:=W) None).
Proof.
  intros HQ s. unfold setPitr. mstep.
  destruct (pitrjob (agent s)) as [old|]; cbn; (split; [left; reflexivity|]).
  - eexists [_]. split; [reflexivity|]. auto.
  - exists []. rewrite app_nil_r. auto.
Qed.

Lemma quiet_stopPitrOnOplogOnlyChange currOO :
  (forall c, Q (EvCancel c)) -> quiet Q (stopPitrOnOplogOnlyChange (W:=W) currOO).
Proof.
  intros HQ s. unfold stopPitrOnOplogOnlyChange, removePitr, setPitr. mstep.
  destruct (prevOO (agent s)) as [prev|]; cbn;
    [destruct (Bool.eqb prev currOO); cbn;
     [|destruct (pitrjob (agent s)) as [old|]; cbn]|];
    (split; [try (left; reflexivity); right; reflexivity|]);
    try (exists []; rewrite app_nil_r; split; [reflexivity|constructor]).
  eexists [_]. split; [reflexivity|]. auto.
Qed.
End QuietFacts.

Ltac quiet_step :=
  lazymatch goal with
  | |- quiet _ (bind _ _) => apply quiet_bind; [|intros]
  | |- quiet _ (pure _) => apply quiet_pure
  | |- quiet _ (ret _) => apply quiet_ret
  | |- quiet _ panic => apply quiet_panic
  | |- quiet _ outOfFuel => apply quiet_outOfFuel
  | |- quiet _ getAgent => apply quiet_getAgent
  | |- quiet _ (logf _ _) => apply quiet_logf; exact I
  | |- quiet _ (go _) => apply quiet_go; exact I
  | |- quiet _ (obs _ _) => apply quiet_obs; intros; exact I
  | |- quiet _ (ext _ _) => apply quiet_ext; intros; exact I
  | |- quiet _ (act _ _) => apply quiet_act; exact I
  | |- quiet _ (when _ _) => apply quiet_when
  | |- quiet _ (whenSome _ _) => apply quiet_whenSome; intros
  | |- quiet _ (deref _) => apply quiet_deref
  | |- quiet _ (run _) => apply quiet_run
  | |- quiet _ (call _) => apply quiet_call
  | |- quiet _ (forEach _ _) => apply quiet_forEach; intros
  | |- quiet _ (forever _ _) => apply quiet_forever
  | |- quiet _ (setPitr None) => apply quiet_setPitr_None; intros; exact I
  | |- quiet _ (stopPitrOnOplogOnlyChange _) =>
      apply quiet_stopPitrOnOplogOnlyChange; intros; exact I
  | |- quiet _ (match ?x with _ => _ end) => destruct x
  end.

Ltac quiet_auto :=
  repeat first
    [ quiet_step
    | progress unfold removePitr, getPitr, sliceNow, canSlicingNow, checkLock,
        pitrLockCheck, waitAllOpLockRelease, pollOpLockRelease,
        confirmReadyStatus, pollReadyStatus, waitNominationForPITR, pollNomination ].


Section QuietFunctions.
Context {W : Type} {D : Deps W}.

Lemma quiet_confirmReadyStatus fuel :
  quiet notNomineesRead (confirmReadyStatus (W:=W) fuel).
Proof. quiet_auto. Qed.

End QuietFunctions.

Section PollingFacts.
Context {W : Type} {D : Deps W}.
Variable NF : Event -> Prop.
Variables cyc tout : Duration.

Lemma forever_keepsPolling {R A} (body : M (@St W) R unit) :
  (forall s, exists new,
      trace (snd (body s)) = trace s ++ new /\ turnOK NF cyc tout new (fst (body s))) ->
  forall fuel s, exists new,
    trace (snd (forever (A:=A) fuel body s)) = trace s ++ new /\
    ((new = [] /\ fst (forever (A:=A) fuel body s) = OutOfFuel) \/
     startsWithSelect cyc tout new) /\
    keepsPolling NF cyc tout new (fst (forever (A:=A) fuel body s)).
Proof.
  intros Hbody. induction fuel as [|n IH]; intros s; cbn.
  - exists []. rewrite app_nil_r. repeat split; auto.
    intros pre ev post H. split_head H.
  - unfold bind.
    destruct (Hbody s) as (new0 & Ht0 & (c0 & t0 & Hsel) & Hnf).
    destruct (body s) as [[[]|r| |] s1]; cbn in *.
    + destruct (IH s1) as (new1 & Ht1 & Hstart & Hkp).
      exists (new0 ++ new1). rewrite Ht1, Ht0, app_assoc.
      split; [reflexivity|]. split.
      * right. subst new0. cbn. eexists _, _. reflexivity.
      * intros pre ev post H Hev. apply app_eq_app_cons in H.
        destruct H as [(post1 & E & ->) | (pre2 & -> & E)].
        -- destruct (Hnf _ _ _ E Hev) as [-> _]. cbn.
           destruct Hstart as [[-> Hf] | Hs]; auto.
        -- eapply Hkp; eauto.
    + exists new0. repeat split; auto.
      * right. eexists _, _; eauto.
      * intros pre ev post H Hev. destruct (Hnf _ _ _ H Hev); discriminate.
    + exists new0. repeat split; auto.
      * right. eexists _, _; eauto.
      * intros pre ev post H Hev. destruct (Hnf _ _ _ H Hev); discriminate.
    + exists new0. repeat split; auto.
      * right. eexists _, _; eauto.
      * intros pre ev post H Hev. destruct (Hnf _ _ _ H Hev); discriminate.
Qed.
End PollingFacts.


Section WaiterFacts.
Context {W : Type} {D : Deps W}.

Lemma forEach_match_node_snd node l : forall (s : @St W),
  snd (forEach (R:=bool * option error) l
         (fun n => when (String.eqb n node) (ret (true, None))) s) = s.
Proof.
  induction l as [|n l IH]; intros s; cbn; auto.
  unfold bind, when. destruct (String.eqb n node); cbn; auto.
Qed.

Ltac turn_leaf :=
  unfold emit; cbn;
  (eexists; rewrite <- ?app_assoc; split; [reflexivity|]);
  (split; [eexists _, _; reflexivity|]);
  let H := fresh "H" in let Hev := fresh "Hev" in
  intros ? ? ? H Hev; cbn in H; split_head H;
  subst; cbn in Hev; try contradiction; auto;
  try (destruct Hev; congruence); try congruence.

Lemma pollNomination_turnOK rs node (s : @St W) :
  exists new,
    trace (snd (pollNomination rs node s)) = trace s ++ new /\
    turnOK (nomineesNotFound rs) pitrNominationPollingCycle
           pitrNominationPollingTimeOut new (fst (pollNomination rs node s)).
Proof.
  unfold pollNomination. mstep.
  destruct (select_tick_or_timeout _ _ _) as [[|] w1]; gcbn; [|turn_leaf].
  destruct (oplog_GetPITRNominees rs w1) as [nm [e|]]; gcbn.
  - destruct (errors.Is e ErrNotFound) eqn:His; gcbn; turn_leaf.
  - destruct nm as [nm|]; gcbn; [|turn_leaf].
    destruct (0 <? String.length (oplog.Ack nm))%nat; gcbn; [turn_leaf|].
    match goal with |- context [forEach ?l ?b ?s1] =>
      assert (Hl : snd (forEach l b s1) = s1)
        by (exact (forEach_match_node_snd node l s1));
      destruct (forEach l b s1) as [r s2]; cbn in Hl; subst s2 end.
    destruct r; turn_leaf.
Qed.

Lemma pollReadyStatus_turnOK a (s : @St W) :
  exists new,
    trace (snd (pollReadyStatus a s)) = trace s ++ new /\
    turnOK statusNotFound pitrNominationPollingCycle
           pitrNominationPollingTimeOut new (fst (pollReadyStatus a s)).
Proof.
  unfold pollReadyStatus. mstep.
  destruct (select_tick_or_timeout _ _ _) as [[|] w1]; gcbn; [|turn_leaf].
  destruct (oplog_GetClusterStatus w1) as [st [e|]]; gcbn.
  - destruct (errors.Is e ErrNotFound) eqn:His; gcbn; turn_leaf.
  - destruct (String.eqb st oplog.StatusReady); gcbn; [|turn_leaf].
    destruct (oplog_SetReadyRSStatus _ _ _) as [[e|] w2]; gcbn; turn_leaf.
Qed.

Lemma waiters_keep_polling_on_not_found :
  (forall fuel rs node (s : @St W) pre x e post,
      trace (snd (waitNominationForPITR fuel rs node s)) =
        trace s ++ pre ++ EvGetPITRNominees rs (x, Some e) :: post ->
      errors.Is e ErrNotFound = true ->
      startsWithSelect pitrNominationPollingCycle pitrNominationPollingTimeOut post \/
      (post = [] /\ fst (waitNominationForPITR fuel rs node s) = NoFuel)) /\
  (forall fuel (s : @St W) pre x e post,
      trace (snd (confirmReadyStatus fuel s)) =
        trace s ++ pre ++ EvGetClusterStatus (x, Some e) :: post ->
      errors.Is e ErrNotFound = true ->
      startsWithSelect pitrNominationPollingCycle pitrNominationPollingTimeOut post \/
      (post = [] /\ fst (confirmReadyStatus fuel s) = NoFuel)).
Proof.
  split.
  - intros fuel rs node s pre x e post H His.
    unfold waitNominationForPITR in *. mstep.
    destruct (quiet_confirmReadyStatus fuel s) as (_ & new0 & Ht0 & Hq0).
    destruct (confirmReadyStatus fuel s) as [[[err|]| |] s1]; cbn in *;
      try (rewrite Ht0 in H; apply app_inv_head in H;
           apply (Forall_not_in _ _ _ _ _ Hq0) in H; contradiction).
    match type of H with context [forever fuel _ ?s2] =>
      destruct (forever_keepsPolling (A:=bool * option error)
                  (nomineesNotFound rs) _ _ _
                  (pollNomination_turnOK rs node) fuel s2)
        as (new1 & Ht1 & _ & Hkp);
      destruct (forever fuel (pollNomination rs node) s2) as [res s3] end.
    cbn in *.
    replace (trace (snd _)) with (trace s3) in H by (destruct res; reflexivity).
    rewrite Ht1, Ht0, <- !app_assoc in H. apply app_inv_head in H.
    apply app_eq_app_cons in H.
    destruct H as [(post1 & E & ->) | (pre2 & -> & E)].
    + apply (Forall_not_in _ _ _ _ _ Hq0) in E. contradiction.
    + cbn in E. split_head E.
      destruct (Hkp _ _ _ E) as [Hs | [-> ->]]; cbn; auto.
  - intros fuel s pre x e post H His.
    unfold confirmReadyStatus in *. mstep.
    match type of H with context [forever fuel _ ?s2] =>
      destruct (forever_keepsPolling (A:=option error)
                  statusNotFound _ _ _
                  (pollReadyStatus_turnOK (agent s)) fuel s2)
        as (new1 & Ht1 & _ & Hkp);
      destruct (forever fuel (pollReadyStatus (agent s)) s2) as [res s3] end.
    cbn in *.
    replace (trace (snd _)) with (trace s3) in H by (destruct res; reflexivity).
    rewrite Ht1, <- !app_assoc in H. apply app_inv_head in H.
    cbn in H. split_head H.
    destruct (Hkp _ _ _ H) as [Hs | [-> ->]]; cbn; auto.
Qed.
End WaiterFacts.

Section TickFacts.
Context {W : Type} {D : Deps W}.

Lemma checkLock_frame l (s1 s2 : @St W) :
  world s1 = world s2 ->
  fst (checkLock l s1) = fst (checkLock l s2) /\
  exists evs,
    snd (checkLock l s1) =
      {| agent := agent s1; world := world s1; trace := trace s1 ++ evs |} /\
    snd (checkLock l s2) =
      {| agent := agent s2; world := world s2; trace := trace s2 ++ evs |}.
Proof.
  intros Hw. unfold checkLock. mstep. rewrite <- Hw.
  destruct s1 as [a1 x1 t1], s2 as [a2 x2 t2]. cbn in *. subst x2.
  destruct (negb _); gcbn.
  - split; auto. exists []. rewrite !app_nil_r. auto.
  - destruct (backup_GetBackupByOPID _ _) as [[bcp|] [e|]]; gcbn;
      try destruct (String.eqb _ _); gcbn; unfold emit; cbn;
      (split; [reflexivity|]); eexists [_]; split; reflexivity.
Qed.

Lemma forEach_checkLock_frame locks : forall (s1 s2 : @St W),
  world s1 = world s2 ->
  fst (forEach locks checkLock s1) = fst (forEach locks checkLock s2) /\
  exists evs,
    snd (forEach locks checkLock s1) =
      {| agent := agent s1; world := world s1; trace := trace s1 ++ evs |} /\
    snd (forEach locks checkLock s2) =
      {| agent := agent s2; world := world s2; trace := trace s2 ++ evs |}.
Proof.
  induction locks as [|l rest IH]; intros s1 s2 Hw; cbn.
  - split; auto. exists []. rewrite !app_nil_r.
    destruct s1, s2; auto.
  - unfold bind.
    destruct (checkLock_frame l s1 s2 Hw) as (Hf & evs & H1 & H2).
    destruct (checkLock l s1) as [r1 s1'], (checkLock l s2) as [r2 s2'].
    cbn in *. subst r2 s1' s2'.
    destruct r1 as [[]| | |]; cbn; try (split; eauto; fail).
    match goal with |- context [forEach rest _ ?a] =>
      match goal with |- context [fst (forEach rest _ a) = fst (forEach rest _ ?b)] =>
        destruct (IH a b Hw) as (Hf' & evs' & H1' & H2') end end.
    split; auto. exists (evs ++ evs').
    rewrite H1', H2'. cbn. rewrite !app_assoc. auto.
Qed.

Lemma canSlicingNow_frame (s1 s2 : @St W) :
  world s1 = world s2 ->
  fst (canSlicingNow s1) = fst (canSlicingNow s2) /\
  exists evs,
    snd (canSlicingNow s1) =
      {| agent := agent s1; world := world s1; trace := trace s1 ++ evs |} /\
    snd (canSlicingNow s2) =
      {| agent := agent s2; world := world s2; trace := trace s2 ++ evs |}.
Proof.
  intros Hw. unfold canSlicingNow. mstep.
  destruct s1 as [a1 x1 t1], s2 as [a2 x2 t2]. cbn in *. subst x2.
  destruct (lock_GetLocks lock.zeroHeader x1) as [locks [e|]]; gcbn.
  - split; auto. eexists [_]. split; reflexivity.
  - match goal with |- context [fst (let (_, _) := let (_, _) := forEach locks _ ?a in _ in _) =
                                fst (let (_, _) := let (_, _) := forEach locks _ ?b in _ in _)] =>
      destruct (forEach_checkLock_frame locks a b eq_refl) as (Hf & evs & H1 & H2);
      destruct (forEach locks checkLock a) as [r1 s1'];
      destruct (forEach locks checkLock b) as [r2 s2'] end.
    cbn in *. subst r2 s1' s2'.
    destruct r1 as [[]| | |]; cbn; (split; [reflexivity|]);
      eexists (_ :: evs); rewrite <- !app_assoc; split; reflexivity.
Qed.

(** C4, as the code has it: in a tick that gets to the already-running
    check with a handle (the config is read and has PITR enabled, the
    oplog-only mode is the remembered one or the first one seen, and the
    concurrency gate is open), when the configured interval differs from
    the span of the running slicer, the tick sets that span to the
    configured interval, sends the nil op id on the wake channel exactly
    when the new interval is smaller, and returns nil with the handle in
    place; its calls are the config read, the reads of the gate, and the
    span calls: nothing of the election. *)
Theorem pitr_reconciles_span fuel (s : @St W) cfg p gate :
  config_GetConfig (world s) = (Some cfg, None) ->
  config.Enabled (config.PITR cfg) = true ->
  (prevOO (agent s) = None \/
   prevOO (agent s) = Some (config.OplogOnly (config.PITR cfg))) ->
  fst (canSlicingNow s) = Returned None ->
  trace (snd (canSlicingNow s)) = trace s ++ gate ->
  pitrjob (agent s) = Some p ->
  let interval := config_OplogSlicerInterval cfg in
  let curr := slicer_GetSpan (slicer p) (world s) in
  curr <> interval ->
  fst (pitr fuel s) = Returned None /\
  world (snd (pitr fuel s)) =
    (if (curr >? interval)%Z
     then chan_send (w p) ctrl.NilOPID (slicer_SetSpan (slicer p) interval (world s))
     else slicer_SetSpan (slicer p) interval (world s)) /\
  trace (snd (pitr fuel s)) =
    trace s ++ [EvGetConfig (Some cfg, None)] ++ gate
            ++ [EvGetSpan (slicer p) curr; EvSetSpan (slicer p) interval]
            ++ (if (curr >? interval)%Z then [EvChanSend (w p) ctrl.NilOPID] else []) /\
  pitrjob (agent (snd (pitr fuel s))) = Some p.
Proof.
  intros Hcfg Hen Hoo Hgate Htr Hjob interval curr Hne.
  unfold pitr, stopPitrOnOplogOnlyChange, getPitr, sliceNow. mstep.
  rewrite Hcfg. gcbn. rewrite Hen. gcbn.
  assert (Hoo' : forall X (a b : X),
             match prevOO (agent s) with
             | Some prev => if Bool.eqb prev (config.OplogOnly (config.PITR cfg))
                            then a else b
             | None => a
             end = a).
  { intros X a b. destruct Hoo as [-> | ->]; auto.
    rewrite Bool.eqb_reflx. reflexivity. }
  destruct (prevOO (agent s)) as [prev|] eqn:Hprev; gcbn;
    [ destruct (Bool.eqb prev (config.OplogOnly (config.PITR cfg))) eqn:Heq;
      [| specialize (Hoo' bool true false); discriminate ] |];
    gcbn;
    (match goal with |- context [canSlicingNow ?s1] =>
       destruct (canSlicingNow_frame s1 s eq_refl) as (Hf & evs & H1 & H2);
       rewrite Hgate in Hf; rewrite H2 in Htr; cbn in Htr;
       apply app_inv_head in Htr; subst evs;
       destruct (canSlicingNow s1) as [r1 s1'] end;
     cbn in Hf, H1; subst r1 s1'; gcbn;
     rewrite Hjob; gcbn;
     fold interval; fold curr;
     destruct (Z.eqb_spec curr interval) as [E|_]; [contradiction|]; gcbn;
     destruct (curr >? interval)%Z; gcbn; rewrite ?Hjob; gcbn;
     unfold emit; cbn; rewrite <- ?app_assoc; cbn; auto).
Qed.

Lemma pitr_missing_config fuel (s : @St W) x e :
  config_GetConfig (world s) = (x, Some e) ->
  errors.Is e ErrNoDocuments = true ->
  pitr fuel s =
    (Returned None,
     {| agent := {| brief := brief (agent s); pitrjob := None;
                    prevOO := prevOO (agent s) |};
        world := match pitrjob (agent s) with
                 | Some old => context_cancel (cancel old) (world s)
                 | None => world s
                 end;
        trace := trace s ++ EvGetConfig (x, Some e)
                         :: match pitrjob (agent s) with
                            | Some old => [EvCancel (cancel old)]
                            | None => []
                            end |}).
Proof.
  intros Hcfg His.
  unfold pitr, removePitr, setPitr. mstep.
  rewrite Hcfg. gcbn. rewrite His. gcbn.
  destruct (pitrjob (agent s)) as [old|]; gcbn; unfold emit; cbn;
    rewrite <- ?app_assoc; reflexivity.
Qed.

Lemma beforeCatchup_no_catchup new oo sl e :
  Forall beforeCatchup new -> ~ In (EvCatchup oo sl (Some e)) new.
Proof. intros H Hin. rewrite Forall_forall in H. exact (H _ Hin). Qed.

Lemma beforeCatchup_no_stream new sl lck cfg :
  Forall beforeCatchup new -> ~ In (EvGo (GoStream sl lck cfg)) new.
Proof. intros H Hin. rewrite Forall_forall in H. exact (H _ Hin). Qed.

Lemma tickOK_quiet {A} (m : M (@St W) (option error) A) :
  quiet beforeCatchup m -> tickOK m.
Proof.
  intros Hq s. destruct (Hq s) as (Hk & new & Ht & Hf).
  split; auto. exists new. split; auto.
  intros oo sl e Hin. exfalso. eapply beforeCatchup_no_catchup; eauto.
Qed.

Lemma tickOK_bind {A B} (m : M (@St W) (option error) A) (k : A -> M St (option error) B) :
  quiet beforeCatchup m -> (forall a, tickOK (k a)) -> tickOK (bind m k).
Proof.
  intros Hm Hk s. unfold bind.
  destruct (Hm s) as (Ha & new & Ht & Hq).
  destruct (m s) as [[a|r| |] s1]; cbn in *;
    try (split; auto; exists new; split; auto;
         intros oo sl e Hin; exfalso; eapply beforeCatchup_no_catchup; eauto; fail).
  destruct (Hk a s1) as (Ha' & new' & Ht' & Hc).
  split; [eapply keepsHandle_trans; eauto|].
  exists (new ++ new'). rewrite Ht', Ht, app_assoc. split; auto.
  intros oo sl e Hin. apply in_app_or in Hin.
  destruct Hin as [Hin|Hin]; [exfalso; eapply beforeCatchup_no_catchup; eauto|].
  destruct (Hc oo sl e Hin) as (Hres & (pre & lck & rel & Hnew & Hacq) & Hgo).
  split; auto. split.
  - exists (new ++ pre), lck, rel. rewrite Hnew, app_assoc. split; auto.
    apply in_or_app; auto.
  - intros sl' lck' cfg' Hin'. apply in_app_or in Hin'.
    destruct Hin' as [Hin'|Hin']; [eapply beforeCatchup_no_stream; eauto|].
    eapply Hgo; eauto.
Qed.
End TickFacts.

Ltac tick_step :=
  lazymatch goal with
  | |- tickOK (bind (ext (acquireLock _) _) _) => fail
  | |- tickOK (bind _ _) => apply tickOK_bind; [solve [quiet_auto] | intros]
  | |- tickOK (match ?x with _ => _ end) => destruct x
  | |- tickOK (let _ := _ in _) => cbv zeta
  end.


Section TickFacts2.
Context {W : Type} {D : Deps W}.

Lemma tickOK_from_acquire (a : Agent) (cfg : config.Config) lck
      (rest : M (@St W) (option error) (option error)) :
  rest =
    ('(got, err) <- ext (acquireLock lck) (EvAcquireLock lck) ;;
     whenSome err (fun e => ret (Some (Wrap e "acquiring lock"))) ;;
     when (negb got) (logf DebugLevel "skip: lock not acquired" ;; ret None) ;;
     _ <- ext (oplog_SetPITRNomineeACK (SetName (brief a)) (Me (brief a)))
              (fun _ => EvSetPITRNomineeACK (SetName (brief a)) (Me (brief a))) ;;
     '(stg, err) <- ext (util_StorageFromConfig (config.Storage cfg))
                        (EvStorageFromConfig (config.Storage cfg)) ;;
     whenSome err (fun e => ret (Some (Wrap e "unable to get storage configuration"))) ;;
     s <- ext (slicer_NewSlicer (SetName (brief a)) stg cfg)
              (EvNewSlicer (SetName (brief a)) stg cfg) ;;
     act (slicer_SetSpan s (config_OplogSlicerInterval cfg))
         (EvSetSpan s (config_OplogSlicerInterval cfg)) ;;
     err <- (if config.OplogOnly (config.PITR cfg)
             then ext (slicer_OplogOnlyCatchup s) (EvCatchup true s)
             else ext (slicer_Catchup s) (EvCatchup false s)) ;;
     whenSome err (fun e =>
       rerr <- ext (lock_Release lck) (EvLockRelease lck) ;;
       whenSome rerr (fun _ => logf ErrorLevel "release lock: %v") ;;
       ret (Some (Wrap e "catchup"))) ;;
     go (GoStream s lck cfg) ;;
     ret None)%go ->
  tickOK rest.
Proof.
  intros -> s0. mstep.
  destruct (acquireLock lck (world s0)) as [[got [e|]] w1]; gcbn;
    [| destruct got; gcbn;
       [ destruct (oplog_SetPITRNomineeACK _ _ w1) as [ackErr w2]; gcbn;
         destruct (util_StorageFromConfig _ w2) as [[stg [e|]] w3]; gcbn;
         [| destruct (slicer_NewSlicer _ stg cfg w3) as [sl0 w4]; gcbn;
            destruct (config.OplogOnly (config.PITR cfg)); gcbn;
            [ destruct (slicer_OplogOnlyCatchup sl0 _) as [[e|] w5]
            | destruct (slicer_Catchup sl0 _) as [[e|] w5] ]; gcbn;
            try (destruct (lock_Release lck w5) as [[e'|] w6]; gcbn) ] |] ];
    unfold emit; cbn; (split; [right; reflexivity|]);
    (eexists; rewrite <- ?app_assoc; split; [reflexivity|]);
    intros oo sl e0 Hin; cbn in Hin;
    repeat (destruct Hin as [Hin|Hin]; try discriminate Hin);
    try contradiction;
    inversion Hin; subst; clear Hin;
    (split; [reflexivity|]); split;
    try (intros sl' lck' cfg' Hin'; cbn in Hin';
         repeat (destruct Hin' as [Hin'|Hin']; try discriminate Hin');
         contradiction);
    cbn;
    match goal with
    | |- exists pre l rel,
           ?x1 :: ?x2 :: ?x3 :: ?x4 :: ?x5 :: _ :: EvLockRelease ?l0 ?r0 :: _ = _ /\ _ =>
        exists [x1; x2; x3; x4; x5], l0, r0
    end;
    (split; [reflexivity|]); left; reflexivity.
Qed.

(** C5: when the trace of a tick shows a catchup (plain or oplog-only)
    that failed, the tick returns that error wrapped, the release of the
    lock acquired earlier in the tick is the call right after the catchup
    (followed at most by the log line of a failed release), no streaming
    goroutine is started, and the slot holds no handle it did not hold
    before. *)
Theorem pitr_catchup_failure fuel (s : @St W) new oo sl e :
  trace (snd (pitr fuel s)) = trace s ++ new ->
  In (EvCatchup oo sl (Some e)) new ->
  fst (pitr fuel s) = Returned (Some (Wrap e "catchup")) /\
  (exists pre lck rel,
      new = pre ++ EvCatchup oo sl (Some e) :: EvLockRelease lck rel :: releaseLog rel /\
      In (EvAcquireLock lck (true, None)) pre) /\
  (forall sl' lck' cfg', ~ In (EvGo (GoStream sl' lck' cfg')) new) /\
  keepsHandle (agent s) (agent (snd (pitr fuel s))).
Proof.
  intros Ht Hin. revert Ht. unfold pitr.
  match goal with |- context [run ?b] => assert (H : tickOK b) end.
  { repeat tick_step. eapply tickOK_from_acquire. reflexivity. }
  destruct (H s) as (Hk & new' & Ht' & Hc). clear H.
  unfold run.
  match goal with |- context [let (_, _) := ?b s in _] =>
    destruct (b s) as [res s1] end.
  cbn in *.
  replace (trace (snd _)) with (trace s1) by (destruct res; reflexivity).
  replace (agent (snd _)) with (agent s1) by (destruct res; reflexivity).
  intros Ht. rewrite Ht' in Ht. apply app_inv_head in Ht. subst new'.
  destruct (Hc oo sl e Hin) as (-> & Hpre & Hgo). cbn. auto.
Qed.
End TickFacts2.

Section NotFound.
Context {W : Type} {D : Deps W}.

Lemma pitr_disabled fuel (s : @St W) cfg :
  config_GetConfig (world s) = (Some cfg, None) ->
  config.Enabled (config.PITR cfg) = false ->
  pitr fuel s =
    (Returned None,
     {| agent := {| brief := brief (agent s); pitrjob := None;
                    prevOO := prevOO (agent s) |};
        world := match pitrjob (agent s) with
                 | Some old => context_cancel (cancel old) (world s)
                 | None => world s
                 end;
        trace := trace s ++ EvGetConfig (Some cfg, None)
                         :: match pitrjob (agent s) with
                            | Some old => [EvCancel (cancel old)]
                            | None => []
                            end |}).
Proof.
  intros Hcfg Hen.
  unfold pitr, removePitr, setPitr. mstep.
  rewrite Hcfg. gcbn. rewrite Hen. gcbn.
  destruct (pitrjob (agent s)) as [old|]; gcbn; unfold emit; cbn;
    rewrite <- ?app_assoc; reflexivity.
Qed.

(** C7: a not-found result of a read of an optional document does not
    become an error.  (1) When the config read fails with
    [mongo.ErrNoDocuments] the tick goes on with the empty config: it
    returns nil after removing the handle, which is, call for call, what
    it does when the read yields [config.Config{}] itself.  (2) In the
    nominee waiter and (3) in the ready-status poll, a read that fails
    with [errors.ErrNotFound] is followed by the next [select] of the
    loop; the trace ends at such a read only if the fuel of the model
    ends there. *)
Theorem not_found_is_not_an_error :
  (forall fuel (s : @St W) x e,
      config_GetConfig (world s) = (x, Some e) ->
      errors.Is e ErrNoDocuments = true ->
      fst (pitr fuel s) = Returned None /\
      exists evs,
        trace (snd (pitr fuel s)) = trace s ++ EvGetConfig (x, Some e) :: evs /\
        forall s' : @St W,
          agent s' = agent s ->
          config_GetConfig (world s') = (Some config.empty, None) ->
          fst (pitr fuel s') = Returned None /\
          agent (snd (pitr fuel s')) = agent (snd (pitr fuel s)) /\
          trace (snd (pitr fuel s')) =
            trace s' ++ EvGetConfig (Some config.empty, None) :: evs) /\
  (forall fuel rs node (s : @St W) pre x e post,
      trace (snd (waitNominationForPITR fuel rs node s)) =
        trace s ++ pre ++ EvGetPITRNominees rs (x, Some e) :: post ->
      errors.Is e ErrNotFound = true ->
      startsWithSelect pitrNominationPollingCycle pitrNominationPollingTimeOut post \/
      (post = [] /\ fst (waitNominationForPITR fuel rs node s) = NoFuel)) /\
  (forall fuel (s : @St W) pre x e post,
      trace (snd (confirmReadyStatus fuel s)) =
        trace s ++ pre ++ EvGetClusterStatus (x, Some e) :: post ->
      errors.Is e ErrNotFound = true ->
      startsWithSelect pitrNominationPollingCycle pitrNominationPollingTimeOut post \/
      (post = [] /\ fst (confirmReadyStatus fuel s) = NoFuel)).
Proof.
  split; [|exact waiters_keep_polling_on_not_found].
  intros fuel s x e Hcfg His.
  rewrite (pitr_missing_config fuel s x e Hcfg His). cbn.
  split; [reflexivity|]. eexists. split; [reflexivity|].
  intros s' Ha Hcfg'.
  rewrite (pitr_disabled fuel s' config.empty Hcfg' eq_refl). cbn.
  rewrite Ha. auto.
Qed.
End NotFound.

Section Ext.
Context {S R : Type}.

Lemma bind_ext {A B} (m1 m2 : M S R A) (k1 k2 : A -> M S R B) :
  (forall s, m1 s = m2 s) -> (forall a s, k1 a s = k2 a s) ->
  forall s, bind m1 k1 s = bind m2 k2 s.
Proof.
  intros Hm Hk s. unfold bind. rewrite Hm.
  destruct (m2 s) as [[a| | |] s1]; auto.
Qed.

Lemma run_ext (b1 b2 : M S R R) :
  (forall s, b1 s = b2 s) -> forall s, run b1 s = run b2 s.
Proof. intros H s. unfold run. rewrite H. reflexivity. Qed.
End Ext.

(** C9: the error reported by the write of the nominee ack has no effect
    on the tick: with any two ways [f1], [f2] of reporting it (success
    included), the tick returns the same result and leaves the same agent,
    world and trace, log lines included. *)
Theorem pitr_ack_error_dropped {W} (D : Deps W) f1 f2 fuel (s : @St W) :
  @pitr W (withAckResult f1 D) fuel s = @pitr W (withAckResult f2 D) fuel s.
Proof.
  unfold pitr. revert s. apply run_ext.
  repeat (apply bind_ext; [intros; reflexivity | intros]; try match goal with
    | |- (let (_, _) := ?x in _) _ = _ => destruct x end).
  unfold bind, ext. cbn. reflexivity.
Qed.

(** * The statements on the simulated cluster *)

Section Instances.
Import Sim.

Ltac in_list := repeat first [left; reflexivity | right].

(** C10 on a fresh agent: the first call only records the value. *)
Lemma stopPitrOnOplogOnlyChange_first_call :
  prevOO (agent (start slicingAgent world0)) = Some false /\
  snd (stopPitrOnOplogOnlyChange false (start slicingAgent world0))
    = start slicingAgent world0 /\
  snd (stopPitrOnOplogOnlyChange true (start agent0 world0))
    = start {| brief := brief agent0; pitrjob := None; prevOO := Some true |} world0 /\
  pitrjob (agent (snd (stopPitrOnOplogOnlyChange true (start slicingAgent world0))))
    = None.
Proof.
  split; [reflexivity|]. split; [|split].
  - apply (stopPitrOnOplogOnlyChange_frame false (start slicingAgent world0)).
    reflexivity.
  - apply (stopPitrOnOplogOnlyChange_frame true (start agent0 world0)).
    reflexivity.
  - apply (stopPitrOnOplogOnlyChange_frame true (start slicingAgent world0)) with false.
    + reflexivity.
    + discriminate.
Defined.

(** C2 behind a physical backup: the restore lock pauses slicing. *)
Lemma canSlicingNow_restore_blocks :
  fst (canSlicingNow
         (start agent0 (with_backups [physicalBackup]
                          (with_locks [physicalLock; restoreLock] world0))))
  = Returned (Some (ConcurrentOpError (header "restore" "op-restore"))).
Proof.
  assert (Hlocks : lock_GetLocks lock.zeroHeader
                     (world (start agent0
                               (with_backups [physicalBackup]
                                  (with_locks [physicalLock; restoreLock] world0))))
                   = ([physicalLock; restoreLock], None)) by reflexivity.
  destruct (canSlicingNow_gate _ _ Hlocks) as (_ & Hblocked & _).
  apply (Hblocked [physicalLock] restoreLock []).
  - reflexivity.
  - constructor; [|constructor]. split; [reflexivity|].
    exists physicalBackup. split; [reflexivity|]. discriminate.
  - left. discriminate.
Defined.

(** C2 as stated fails: behind a backup lock whose metadata cannot be
    read, the restore lock does not yield a [ConcurrentOpError] at all;
    and of two blocking locks only the first one's header is returned. *)
Lemma canSlicingNow_not_every_blocking_lock :
  let s1 := start agent0 (with_locks [orphanLock; restoreLock] world0) in
  let s2 := start agent0 (with_locks [restoreLock; resyncLock] world0) in
  (lock_GetLocks lock.zeroHeader (world s1) = ([orphanLock; restoreLock], None) /\
   lock.Type_ (lock.Header restoreLock) <> ctrl.CmdBackup /\
   fst (canSlicingNow s1) = Returned (Some (Wrap ErrNotFound "get backup metadata")) /\
   fst (canSlicingNow s1)
     <> Returned (Some (ConcurrentOpError (lock.Header restoreLock)))) /\
  (lock_GetLocks lock.zeroHeader (world s2) = ([restoreLock; resyncLock], None) /\
   lock.Type_ (lock.Header resyncLock) <> ctrl.CmdBackup /\
   fst (canSlicingNow s2)
     <> Returned (Some (ConcurrentOpError (lock.Header resyncLock)))).
Proof.
  cbv zeta. repeat split; try reflexivity; try discriminate.
Qed.

(** C3 at the boundary: a heartbeat exactly [StaleFrameSec] old is not
    stale. *)
Lemma pitrLockCheck_boundary :
  exists moveOn,
    fst (pitrLockCheck (start agent0 (heldWorld 1700000070))) = Returned (moveOn, None) /\
    moveOn = false.
Proof.
  assert (Hts : topo_GetClusterTime (world (start agent0 (heldWorld 1700000070)))
                = ({| primitive.T := 1700000100; primitive.I := 1 |}, None))
    by reflexivity.
  assert (Htl : lock_GetOpLockData
                  {| lock.Type_ := ctrl.CmdPITR;
                     lock.Replset := SetName (brief (agent (start agent0 (heldWorld 1700000070))));
                     lock.Node := ""; lock.OPID := ""; lock.Epoch := None |}
                  (world (start agent0 (heldWorld 1700000070)))
                = ({| lock.Header := header "pitr" "";
                      lock.Heartbeat := {| primitive.T := 1700000070;
                                           primitive.I := 1 |} |}, None))
    by reflexivity.
  assert (Herr : forall e, @None error = Some e -> errors.Is e ErrNoDocuments = true)
    by discriminate.
  destruct (pitrLockCheck_stale _ _ _ _ Hts Htl Herr) as (moveOn & Hr & _ & Hmath).
  exists moveOn. split; [exact Hr|].
  apply Hmath; try reflexivity; cbn; unfold primitive.is_uint32, primitive.uint32_max; lia.
Defined.

(** C1 when the first tier acknowledges during the renomination frame:
    the second tier is never published. *)
Lemma nominateRSForPITR_won_by_first_tier :
  let s := start agent0 (with_acksOnSleep [("rs0", me)] world0) in
  fst (nominateRSForPITR "rs0" [[me]; ["n2:27017"]] s) = Returned None /\
  forall n res,
    ~ In (EvSetPITRNominees "rs0" n res)
         [EvLog DebugLevel "pitr nomination: %s won by %s"].
Proof.
  cbv zeta.
  set (s := start agent0 (with_acksOnSleep [("rs0", me)] world0)).
  set (fetched := {| oplog.RS := "rs0"; oplog.Nodes := [me]; oplog.Ack := me |}).
  set (pre := [EvLog DebugLevel "pitr nomination list for %s: %v";
               EvSetPITRNomination "rs0" None;
               EvGetPITRNominees "rs0"
                 (Some {| oplog.RS := "rs0"; oplog.Nodes := []; oplog.Ack := "" |}, None);
               EvSetPITRNominees "rs0" [me] None;
               EvLog DebugLevel "pitr nomination %s, set candidates %v";
               EvSleep pitrRenominationFrame]).
  set (post := [EvLog DebugLevel "pitr nomination: %s won by %s"]).
  assert (Htrace : trace (snd (nominateRSForPITR "rs0" [[me]; ["n2:27017"]] s))
                   = trace s ++ pre ++ EvGetPITRNominees "rs0" (Some fetched, None) :: post)
    by reflexivity.
  destruct (nominateRSForPITR_stops_on_ack _ _ _ _ Htrace) as (_ & _ & Hack).
  assert (Hlen : (0 < String.length (oplog.Ack fetched))%nat) by (cbn; lia).
  destruct (Hack pre fetched None post eq_refl Hlen) as (_ & Hset & _).
  split; [reflexivity | exact Hset].
Defined.

(** C4 on a running slicer with a ten-minute span and a one-minute
    config: the span is set and the slicer woken. *)
Lemma pitr_shrinks_span :
  let r := pitr 5 (start slicingAgent slicingWorld) in
  fst r = Returned None /\
  slicer_GetSpan 7 (world (snd r)) = (1 * time.Minute)%Z /\
  sent (world (snd r)) = [(8, ctrl.NilOPID)] /\
  pitrjob (agent (snd r)) = Some job7.
Proof.
  cbv zeta.
  assert (Hcfg : config_GetConfig (world (start slicingAgent slicingWorld))
                 = (Some cfg0, None)) by reflexivity.
  assert (Hgate : trace (snd (canSlicingNow (start slicingAgent slicingWorld)))
                  = trace (start slicingAgent slicingWorld)
                    ++ [EvGetLocks lock.zeroHeader ([], None)]) by reflexivity.
  assert (Hne : slicer_GetSpan (slicer job7) (world (start slicingAgent slicingWorld))
                <> config_OplogSlicerInterval cfg0) by (vm_compute; discriminate).
  destruct (pitr_reconciles_span 5 _ cfg0 job7 _ Hcfg eq_refl
              (or_intror eq_refl) eq_refl Hgate eq_refl Hne)
    as (Hres & Hworld & _ & Hjob).
  split; [exact Hres|]. rewrite Hworld. split; [reflexivity|].
  split; [reflexivity | exact Hjob].
Defined.

(** C4 as stated fails: with the same handle and the same changed
    interval, a tick that finds a restore lock pauses before the
    already-running check and leaves the span as it was. *)
Lemma pitr_paused_keeps_span :
  let s := start slicingAgent restoringWorld in
  pitrjob (agent s) = Some job7 /\
  slicer_GetSpan (slicer job7) (world s) = (10 * time.Minute)%Z /\
  config_GetConfig (world s) = (Some cfg0, None) /\
  config_OplogSlicerInterval cfg0 = (1 * time.Minute)%Z /\
  fst (pitr 5 s) = Returned None /\
  (forall d, ~ In (EvSetSpan (slicer job7) d) (trace (snd (pitr 5 s)))) /\
  slicer_GetSpan (slicer job7) (world (snd (pitr 5 s))) = (10 * time.Minute)%Z.
Proof.
  cbv zeta. repeat split; try reflexivity.
  intros d Hin. vm_compute in Hin.
  repeat (destruct Hin as [Hin|Hin]; try discriminate Hin). exact Hin.
Qed.

(** C5 on a nominated node whose catchup fails. *)
Lemma pitr_failed_catchup_releases :
  let r := pitr 5 (start agent0 (nominatedWorld (Some (New "no oplog")))) in
  fst r = Returned (Some (Wrap (New "no oplog") "catchup")) /\
  locks (world (snd r)) = [] /\
  pitrjob (agent (snd r)) = None.
Proof.
  cbv zeta.
  set (s := start agent0 (nominatedWorld (Some (New "no oplog")))).
  assert (Htrace : trace (snd (pitr 5 s)) = trace s ++ trace (snd (pitr 5 s)))
    by exact (eq_sym (app_nil_l _)).
  assert (Hin : In (EvCatchup false 1 (Some (New "no oplog"))) (trace (snd (pitr 5 s))))
    by (vm_compute; in_list).
  destruct (pitr_catchup_failure 5 s _ _ _ _ Htrace Hin) as (Hres & _ & _ & _).
  split; [exact Hres|]. split; vm_compute; reflexivity.
Defined.

(** C7 on a cluster without config, and on one without PITR meta. *)
Lemma not_found_instances :
  fst (pitr 5 (start slicingAgent (with_cfg None slicingWorld))) = Returned None /\
  startsWithSelect pitrNominationPollingCycle pitrNominationPollingTimeOut
    [EvSelect pitrNominationPollingCycle pitrNominationPollingTimeOut TickFired;
     EvGetPITRNominees "rs0" (None, Some ErrNotFound);
     EvSelect pitrNominationPollingCycle pitrNominationPollingTimeOut TimeoutFired] /\
  startsWithSelect pitrNominationPollingCycle pitrNominationPollingTimeOut
    [EvSelect pitrNominationPollingCycle pitrNominationPollingTimeOut TickFired;
     EvGetClusterStatus ("", Some ErrNotFound);
     EvSelect pitrNominationPollingCycle pitrNominationPollingTimeOut TimeoutFired].
Proof.
  destruct (@not_found_is_not_an_error World deps) as (Hcfg & Hnom & Hready).
  split; [|split].
  - assert (H : config_GetConfig (world (start slicingAgent (with_cfg None slicingWorld)))
                = (None, Some (Wrap ErrNoDocuments "get"))) by reflexivity.
    exact (proj1 (Hcfg 5 _ _ _ H eq_refl)).
  - set (s := start agent0 (with_selects [TickFired; TickFired; TickFired] world0)).
    assert (H : trace (snd (waitNominationForPITR 5 "rs0" me s))
                = trace s
                  ++ [EvLog DebugLevel "waiting for cluster ready status";
                      EvSelect pitrNominationPollingCycle pitrNominationPollingTimeOut
                               TickFired;
                      EvGetClusterStatus ("ready", None);
                      EvSetReadyRSStatus "rs0" me None;
                      EvLog DebugLevel "waiting pitr nomination";
                      EvSelect pitrNominationPollingCycle pitrNominationPollingTimeOut
                               TickFired]
                  ++ EvGetPITRNominees "rs0" (None, Some ErrNotFound)
                  :: [EvSelect pitrNominationPollingCycle pitrNominationPollingTimeOut
                               TickFired;
                      EvGetPITRNominees "rs0" (None, Some ErrNotFound);
                      EvSelect pitrNominationPollingCycle pitrNominationPollingTimeOut
                               TimeoutFired]) by reflexivity.
    destruct (Hnom 5 "rs0" me s _ _ _ _ H eq_refl) as [Hsel | [Hnil _]];
      [exact Hsel | discriminate Hnil].
  - set (s := start agent0 unpreparedWorld).
    assert (H : trace (snd (confirmReadyStatus 5 s))
                = trace s
                  ++ [EvLog DebugLevel "waiting for cluster ready status";
                      EvSelect pitrNominationPollingCycle pitrNominationPollingTimeOut
                               TickFired]
                  ++ EvGetClusterStatus ("", Some ErrNotFound)
                  :: [EvSelect pitrNominationPollingCycle pitrNominationPollingTimeOut
                               TickFired;
                      EvGetClusterStatus ("", Some ErrNotFound);
                      EvSelect pitrNominationPollingCycle pitrNominationPollingTimeOut
                               TimeoutFired]) by reflexivity.
    destruct (Hready 5 s _ _ _ _ H eq_refl) as [Hsel | [Hnil _]];
      [exact Hsel | discriminate Hnil].
Defined.

(** C8 on the empty tier: it is published and slept on. *)
Lemma nominateTier_empty_tier_sleeps :
  let s := start agent0 (with_nominations
                           [{| oplog.RS := "rs0"; oplog.Nodes := []; oplog.Ack := "" |}]
                           world0) in
  fst (nominateTier "rs0" [] s) = Next tt /\
  trace (snd (nominateTier "rs0" [] s)) =
    [EvGetPITRNominees "rs0"
       (Some {| oplog.RS := "rs0"; oplog.Nodes := []; oplog.Ack := "" |}, None);
     EvSetPITRNominees "rs0" [] None;
     EvLog DebugLevel "pitr nomination %s, set candidates %v";
     EvSleep pitrRenominationFrame].
Proof.
  cbv zeta.
  set (s := start agent0 _).
  assert (Hget : oplog_GetPITRNominees "rs0" (world s)
                 = (Some {| oplog.RS := "rs0"; oplog.Nodes := []; oplog.Ack := "" |}, None))
    by reflexivity.
  assert (Herr : forall e, @None error = Some e -> errors.Is e ErrNotFound = true)
    by discriminate.
  assert (Hack : forall nm,
             Some {| oplog.RS := "rs0"; oplog.Nodes := []; oplog.Ack := "" |} = Some nm ->
             String.length (oplog.Ack nm) = 0%nat)
    by (intros nm H; injection H as <-; reflexivity).
  assert (Hset : oplog_SetPITRNominees "rs0" [] (world s) = (None, world s))
    by reflexivity.
  rewrite (nominateTier_publishes_and_sleeps "rs0" [] s _ _ _ Hget Herr Hack Hset).
  split; reflexivity.
Defined.

(** C8 as stated fails: the round over an empty tier and then [me]
    publishes the empty tier and sleeps the whole renomination frame before
    it offers the next tier. *)
Lemma nominateRSForPITR_sleeps_on_empty_tier :
  trace (snd (nominateRSForPITR "rs0" [[]; [me]] (start agent0 world0))) =
    [EvLog DebugLevel "pitr nomination list for %s: %v";
     EvSetPITRNomination "rs0" None;
     EvGetPITRNominees "rs0"
       (Some {| oplog.RS := "rs0"; oplog.Nodes := []; oplog.Ack := "" |}, None);
     EvSetPITRNominees "rs0" [] None;
     EvLog DebugLevel "pitr nomination %s, set candidates %v";
     EvSleep pitrRenominationFrame;
     EvGetPITRNominees "rs0"
       (Some {| oplog.RS := "rs0"; oplog.Nodes := []; oplog.Ack := "" |}, None);
     EvSetPITRNominees "rs0" [me] None;
     EvLog DebugLevel "pitr nomination %s, set candidates %v";
     EvSleep pitrRenominationFrame] /\
  pitrRenominationFrame = (5 * time.Second)%Z.
Proof. split; reflexivity. Qed.

(** The tick of C9 does reach the write of the ack, and a failing write
    changes neither its result nor the start of the streaming goroutine. *)
Example pitr_ack_write_fails :
  let failing := withAckResult (fun _ _ _ => Some (New "write concern")) deps in
  let r := @pitr World failing 5 (start agent0 (nominatedWorld None)) in
  fst r = Returned None /\
  In (EvSetPITRNomineeACK "rs0" me) (trace (snd r)) /\
  In (EvGo (GoStream 1 {| lock.Type_ := ctrl.CmdPITR; lock.Replset := "rs0";
                          lock.Node := me; lock.OPID := "";
                          lock.Epoch := Some (config.Epoch cfg0) |} cfg0))
     (trace (snd r)).
Proof.
  cbv zeta. split; [reflexivity|]. split; vm_compute; in_list.
Qed.
End Instances.
